(** * A betting-market backend: markets, bets and settlement

    Shallow embedding of the request handlers of [main.py] (market creation,
    bet placement, settlement) over an explicit document store, and the
    properties of the bet life cycle proved about them.

    Python floats are IEEE binary64 numbers: they are Rocq's primitive floats.
    The three MongoDB collections are finite maps from [_id] to the stored
    document.  Handlers run in a state-and-exception monad over the store. *)

From Stdlib Require Import ZArith Ascii String PrimFloat FloatOps SpecFloat FloatAxioms.
From Stdlib Require Uint63.
From stdpp Require Import gmap strings list fin_maps.

Local Open Scope Z_scope.
Set Warnings "-register-all,-inexact-float,-clear-no-such-hyp".

(** ** Python values *)

(** What a JSON body can put inside an outcome dict ([outcomes: List[dict]]). *)
Inductive value : Type :=
| VNone
| VBool (b : bool)
| VInt (z : Z)
| VFloat (f : float)
| VStr (s : string)
| VList (l : list value)
| VDict (d : gmap string value).

Abbreviation dict := (gmap string value).

(** [datetime.now(timezone.utc)]: an instant, in microseconds. *)
Abbreviation datetime := Z (only parsing).

(** The [n]-th reading of the clock made while one request is served. *)
Abbreviation clock := (nat → Z) (only parsing).

(** A store-native identifier (a [bson.ObjectId]). *)
Abbreviation ObjectId := N (only parsing).

(** Exceptions a handler can end with: the [HTTPException]s it raises itself,
    the errors of the [float()] conversion, and the store's refusal of a
    second document with the same [_id]. *)
Inductive exn : Type :=
| HTTPException (status_code : Z) (detail : string)
| TypeError
| ValueError
| OverflowError
| DuplicateKeyError.

(** [d.get(k)]: the value, or [None] when the key is absent. *)
Definition dict_get (d : dict) (k : string) : value :=
  default VNone (d !! k).

(** [d.get(k, dflt)]. *)
Definition dict_get_default (d : dict) (k : string) (dflt : value) : value :=
  default dflt (d !! k).

(** [v == s] for a [str] object [s]: only an equal string compares equal. *)
Definition py_eq_str (v : value) (s : string) : bool :=
  match v with
  | VStr s' => String.eqb s' s
  | _ => false
  end.

(** ** Float arithmetic *)

(** Nearest integer to [n / d] ([0 <= n], [0 < d]), ties to the even one. *)
Definition round_half_even_div (n d : Z) : Z :=
  let q := n / d in
  let r := n mod d in
  match 2 * r ?= d with
  | Lt => q
  | Gt => q + 1
  | Eq => if Z.even q then q else q + 1
  end.

(** A signed integer as an (unrounded) binary float. *)
Definition SF_of_Z (s : bool) (n : Z) : spec_float :=
  match n with
  | Zpos p => S754_finite s p 0
  | _ => S754_zero s
  end.

(** [round(x, 2)] on a float: the exact value of [x] is rounded to a multiple
    of 1/100 (ties to even), and the float nearest to that decimal is
    returned; infinities, NaN and zeros round to themselves. *)
Definition py_round2 (x : float) : float :=
  match Prim2SF x with
  | S754_finite s m e =>
      let n := if 0 <=? e then Zpos m * 2 ^ e * 100
               else round_half_even_div (Zpos m * 100) (2 ^ (- e)) in
      SF2Prim (SFdiv prec emax (SF_of_Z s n) (S754_finite false 100 0))
  | _ => x
  end.

(** [float(n)] for a Python [int]: the nearest float, [OverflowError] when
    that is out of range. *)
Definition int_to_float (z : Z) : exn + float :=
  match binary_normalize prec emax z 0 false with
  | S754_infinity _ => inl OverflowError
  | sf => inr (SF2Prim sf)
  end.

(** *** Rounding and conversion, as the specification words them *)

(** [n] is the integer nearest to the exact product [m * 2^e * 100], and the
    even one of the two nearest when the product lies half-way between them:
    [n] hundredths is the exact value [m * 2^e] rounded to two decimals. *)
Definition nearest_hundredths (m : positive) (e : Z) (n : Z) : Prop :=
  (0 <= e → n = Zpos m * 2 ^ e * 100) ∧
  (e < 0 →
   Z.abs (2 * (Zpos m * 100 - n * 2 ^ (- e))) <= 2 ^ (- e) ∧
   (Z.abs (2 * (Zpos m * 100 - n * 2 ^ (- e))) = 2 ^ (- e) → Z.even n = true)).

(** [r] is [x] rounded to two decimal places: for a finite non-zero [x] of
    sign [s] and absolute value [m * 2^e], [r] is the binary64 quotient
    ([SFdiv], the specification of the division of floats) of [n] by 100, with
    sign [s], where [n] hundredths is that value rounded to two decimals; a
    zero, an infinity or NaN is left as it is. *)
Definition rounded_to_hundredths (x r : float) : Prop :=
  match Prim2SF x with
  | S754_finite s m e =>
      ∃ n, nearest_hundredths m e n ∧
           r = SF2Prim (SFdiv prec emax (SF_of_Z s n) (S754_finite false 100 0))
  | _ => r = x
  end.


(** ** Documents *)

Module User.
Record doc : Type := Build {
  username : string;
  email : option string;
  created_at : datetime;
  is_active : bool;
  balance : float
}.
End User.

Module Market.
Record doc : Type := Build {
  game_type : string;
  title : string;
  outcomes : list dict;
  status : string;
  start_time : option datetime;
  created_at : datetime;
  settled_outcome_key : option string;
  settled_at : option datetime
}.

(** [{"$set": {"status": "settled", "settled_outcome_key": k, "settled_at": t}}] *)
Definition set_settled (k : string) (t : datetime) (m : doc) : doc :=
  {| game_type := game_type m;
     title := title m;
     outcomes := outcomes m;
     status := "settled";
     start_time := start_time m;
     created_at := created_at m;
     settled_outcome_key := Some k;
     settled_at := Some t |}.
End Market.

Module Bet.
Record doc : Type := Build {
  user_id : string;
  market_id : string;
  outcome_key : string;
  stake : float;
  odds : float;
  potential_payout : float;
  status : string;
  placed_at : datetime;
  updated_at : option datetime
}.

(** [{"$set": {"status": new_status, "updated_at": t}}] *)
Definition set_status (new_status : string) (t : datetime) (b : doc) : doc :=
  {| user_id := user_id b;
     market_id := market_id b;
     outcome_key := outcome_key b;
     stake := stake b;
     odds := odds b;
     potential_payout := potential_payout b;
     status := new_status;
     placed_at := placed_at b;
     updated_at := Some t |}.
End Bet.

(** ** Request payloads (the pydantic models of [main.py]) *)

Record CreateUser : Type := {
  cu_username : string;
  cu_email : option string
}.

Record CreateMarket : Type := {
  cm_game_type : string;
  cm_title : string;
  cm_outcomes : list dict;
  cm_start_time : option datetime
}.

Record PlaceBet : Type := {
  pb_user_id : string;
  pb_market_id : string;
  pb_outcome_key : string;
  pb_stake : float
}.

Record SettlePayload : Type := {
  settled_outcome_key : string
}.

(** What a handler answers: [{"id": new_id}], [{"status": "ok"}], or
    [{"items": [...]}] with the [id] of each document beside it. *)
Inductive response : Type :=
| IDModel (id : string)
| StatusOk
| MarketItems (items : list (string * Market.doc))
| BetItems (items : list (string * Bet.doc)).

(** ** The document store *)

(** The database: one collection per kind of record, each a finite map from
    [_id] to the document. *)
Record DB : Type := {
  user : gmap ObjectId User.doc;
  market : gmap ObjectId Market.doc;
  bet : gmap ObjectId Bet.doc
}.

Definition empty_db : DB := {| user := ∅; market := ∅; bet := ∅ |}.

(** A handler: it reads and writes the store and either returns or raises. *)
Definition M (A : Type) : Type := DB → (exn + A) * DB.

Definition ret {A} (a : A) : M A := λ db, (inr a, db).

Definition raise {A} (e : exn) : M A := λ db, (inl e, db).

Definition bind {A B} (c : M A) (k : A → M B) : M B :=
  λ db, match c db with
        | (inl e, db') => (inl e, db')
        | (inr a, db') => k a db'
        end.

Definition lift {A} (r : exn + A) : M A := λ db, (r, db).

Declare Scope handler_scope.
Delimit Scope handler_scope with handler.
Notation "x <- c ;; k" := (bind c (λ x, k))
  (at level 100, c at next level, right associativity) : handler_scope.
Notation "c ;;; k" := (bind c (λ _, k))
  (at level 100, right associativity) : handler_scope.

(** ** The error taxonomy *)

(** The error kinds of the engine. *)
Inductive error_kind : Type :=
| InvalidIdFormat
| InvalidGameType
| EmptyOutcomes
| IncompleteOutcome
| InvalidStake
| MarketNotFound
| MarketNotOpen
| InvalidOutcome
| UserNotFound.

(** The kind an exception stands for, read off the [detail] the handlers give
    their [HTTPException]s; no handler has a message for [InvalidStake], and
    the conversion and store errors are of no kind. *)
Definition error_kind_of (e : exn) : option error_kind :=
  match e with
  | HTTPException _ detail =>
      if String.eqb detail "Invalid ID format" then Some InvalidIdFormat
      else if String.eqb detail "Invalid game_type" then Some InvalidGameType
      else if String.eqb detail "Outcomes required" then Some EmptyOutcomes
      else if String.eqb detail "Each outcome needs key, label, odds"
      then Some IncompleteOutcome
      else if String.eqb detail "Market not found" then Some MarketNotFound
      else if String.eqb detail "Market is not open" then Some MarketNotOpen
      else if String.eqb detail "Market must be open to settle" then Some MarketNotOpen
      else if String.eqb detail "Invalid outcome" then Some InvalidOutcome
      else if String.eqb detail "User not found" then Some UserNotFound
      else None
  | _ => None
  end.

(** ** Libraries the handlers call *)

(** The conversions that [bson] and the Python runtime provide. The handlers
    are defined, and the theorems proved, for any such conversions. *)
Class Externals : Type := {
  (** [ObjectId(id_str)]; [None] when the string is refused ([InvalidId]). *)
  ObjectId_of_str : string → option ObjectId;
  (** [str(object_id)]. *)
  str_of_ObjectId : ObjectId → string;
  (** [float(s)] for a [str]; [None] when it is not a number ([ValueError]). *)
  float_of_str : string → option float
}.

Section Handlers.

Context `{Externals}.

Local Open Scope handler_scope.

(** [float(v)] *)
Definition py_float (v : value) : exn + float :=
  match v with
  | VFloat f => inr f
  | VInt z => int_to_float z
  | VBool b => inr (if b then 1%float else 0%float)
  | VStr s =>
      match float_of_str s with
      | Some f => inr f
      | None => inl ValueError
      end
  | VNone | VList _ | VDict _ => inl TypeError
  end.

(** *** The persistence collaborator *)

(** Modelled from the spec: [database.py] ([db], [create_document]) is not
    among the sources; this is the store of section 6, [insert(kind, doc) -> id],
    where the id is the one the driver picked for the document and a second
    document under an id already in the collection is refused. *)
Definition create_document_user (new_id : ObjectId) (d : User.doc) : M string :=
  λ db, match user db !! new_id with
        | Some _ => (inl DuplicateKeyError, db)
        | None =>
            (inr (str_of_ObjectId new_id),
             {| user := <[new_id := d]> (user db); market := market db; bet := bet db |})
        end.

(** Modelled from the spec: [insert("market", doc) -> id], as for users. *)
Definition create_document_market (new_id : ObjectId) (d : Market.doc) : M string :=
  λ db, match market db !! new_id with
        | Some _ => (inl DuplicateKeyError, db)
        | None =>
            (inr (str_of_ObjectId new_id),
             {| user := user db; market := <[new_id := d]> (market db); bet := bet db |})
        end.

(** Modelled from the spec: [insert("bet", doc) -> id], as for users. *)
Definition create_document_bet (new_id : ObjectId) (d : Bet.doc) : M string :=
  λ db, match bet db !! new_id with
        | Some _ => (inl DuplicateKeyError, db)
        | None =>
            (inr (str_of_ObjectId new_id),
             {| user := user db; market := market db; bet := <[new_id := d]> (bet db) |})
        end.

(** Modelled from the spec: [findOne("market", {_id})]. *)
Definition find_one_market (i : ObjectId) : M (option Market.doc) :=
  λ db, (inr (market db !! i), db).

(** Modelled from the spec: [findOne("user", {_id})]. *)
Definition find_one_user (i : ObjectId) : M (option User.doc) :=
  λ db, (inr (user db !! i), db).

(** Modelled from the spec: [findMany("bet", {market_id})], every bet whose
    [market_id] field is the given string, with its [_id]. The order in which
    the store hands the documents out is the store's own; here it is the order
    of the keys, so which clock reading a bet gets is particular to the model. *)
Definition find_bets (market_id : string) : M (list (ObjectId * Bet.doc)) :=
  λ db, (inr (filter (λ p, Bet.market_id p.2 = market_id) (map_to_list (bet db))), db).

(** Modelled from the spec: [get_documents] of [database.py] is
    [findMany("market", filter, limit)], the filter being on [game_type] or
    empty. The documents come in the order of the keys, which need not be the
    store's: which of them fill a full page is particular to the model. *)
Definition get_documents_market (filt : option string) (limit : nat)
  : M (list (ObjectId * Market.doc)) :=
  λ db, let all := map_to_list (market db) in
        (inr (take limit match filt with
                         | Some g => filter (λ p, Market.game_type p.2 = g) all
                         | None => all
                         end), db).

(** Modelled from the spec: [findMany("bet", {user_id}, limit)], in the order
    of the keys as for the markets. *)
Definition get_documents_bet (user_id : string) (limit : nat)
  : M (list (ObjectId * Bet.doc)) :=
  λ db, (inr (take limit (filter (λ p, Bet.user_id p.2 = user_id)
                                 (map_to_list (bet db)))), db).

(** Modelled from the spec: [updateOne("market", {_id}, changes)]. *)
Definition update_one_market (i : ObjectId) (f : Market.doc → Market.doc) : M unit :=
  λ db, (inr (), {| user := user db; market := alter f i (market db); bet := bet db |}).

(** Modelled from the spec: [updateOne("bet", {_id}, changes)]. *)
Definition update_one_bet (i : ObjectId) (f : Bet.doc → Bet.doc) : M unit :=
  λ db, (inr (), {| user := user db; market := market db; bet := alter f i (bet db) |}).

(** *** The handlers of [main.py] *)

Definition oid (id_str : string) : M ObjectId :=
  match ObjectId_of_str id_str with
  | Some i => ret i
  | None => raise (HTTPException 400 "Invalid ID format")
  end.

Definition create_user (new_id : ObjectId) (now : clock) (payload : CreateUser)
  : M response :=
  let doc := {| User.username := cu_username payload;
                User.email := cu_email payload;
                User.created_at := now 0%nat;
                User.is_active := true;
                User.balance := 0%float |} in
  new_id <- create_document_user new_id doc ;;
  ret (IDModel new_id).

(** [{"key", "label", "odds"}.issubset(o.keys())] *)
Definition has_outcome_fields (o : dict) : bool :=
  bool_decide (({["key"; "label"; "odds"]} : gset string) ⊆ dom o).

(** The loop of [create_market] over the outcomes. *)
Fixpoint check_outcomes (os : list dict) : M unit :=
  match os with
  | [] => ret ()
  | o :: os' =>
      if negb (has_outcome_fields o)
      then raise (HTTPException 400 "Each outcome needs key, label, odds")
      else check_outcomes os'
  end.

(** The market record that [create_market] builds from a payload. *)
Definition new_market (now : nat → Z) (payload : CreateMarket) : Market.doc :=
  {| Market.game_type := cm_game_type payload;
     Market.title := cm_title payload;
     Market.outcomes := cm_outcomes payload;
     Market.status := "open";
     Market.start_time := cm_start_time payload;
     Market.created_at := now 0%nat;
     Market.settled_outcome_key := None;
     Market.settled_at := None |}.

Definition create_market (new_id : ObjectId) (now : clock) (payload : CreateMarket)
  : M response :=
  if negb (bool_decide (cm_game_type payload ∈ ["cricket"; "matka"; "other"]))
  then raise (HTTPException 400 "Invalid game_type")
  else if bool_decide (cm_outcomes payload = [])
  then raise (HTTPException 400 "Outcomes required")
  else
    check_outcomes (cm_outcomes payload) ;;;
    let market := new_market now payload in
    new_id <- create_document_market new_id market ;;
    ret (IDModel new_id).

(** [it["id"] = str(it.pop("_id"))] on each item. *)
Definition with_ids {A} (items : list (ObjectId * A)) : list (string * A) :=
  (λ p, (str_of_ObjectId p.1, p.2)) <$> items.

(** [game_type] is the optional query parameter; an empty one filters nothing. *)
Definition list_markets (game_type : option string) : M response :=
  let filt := match game_type with
              | Some g => if bool_decide (g = "") then None else Some g
              | None => None
              end in
  items <- get_documents_market filt 100 ;;
  ret (MarketItems (with_ids items)).

(** [next((o for o in outcomes if o.get("key") == key), None)] *)
Definition find_outcome (outcomes : list dict) (key : string) : option dict :=
  List.find (λ o, py_eq_str (dict_get o "key") key) outcomes.

(** The bet record that [place_bet] builds from the payload, the converted odds and the payout. *)
Definition new_bet (now : nat → Z) (payload : PlaceBet) (odds potential : float)
  : Bet.doc :=
  {| Bet.user_id := pb_user_id payload;
     Bet.market_id := pb_market_id payload;
     Bet.outcome_key := pb_outcome_key payload;
     Bet.stake := pb_stake payload;
     Bet.odds := odds;
     Bet.potential_payout := potential;
     Bet.status := "pending";
     Bet.placed_at := now 0%nat;
     Bet.updated_at := None |}.

Definition place_bet (new_id : ObjectId) (now : clock) (payload : PlaceBet)
  : M response :=
  mid <- oid (pb_market_id payload) ;;
  market <- find_one_market mid ;;
  match market with
  | None => raise (HTTPException 404 "Market not found")
  | Some market =>
      if negb (String.eqb (Market.status market) "open")
      then raise (HTTPException 400 "Market is not open")
      else
        match find_outcome (Market.outcomes market) (pb_outcome_key payload) with
        | None => raise (HTTPException 400 "Invalid outcome")
        | Some outcome =>
            if bool_decide (outcome = ∅)
            then raise (HTTPException 400 "Invalid outcome")
            else
              uid <- oid (pb_user_id payload) ;;
              user <- find_one_user uid ;;
              match user with
              | None => raise (HTTPException 404 "User not found")
              | Some _ =>
                  odds1 <- lift (py_float (dict_get_default outcome "odds" (VFloat 1%float))) ;;
                  let potential := py_round2 (pb_stake payload * odds1)%float in
                  odds2 <- lift (py_float (dict_get outcome "odds")) ;;
                  let bet := new_bet now payload odds2 potential in
                  new_id <- create_document_bet new_id bet ;;
                  ret (IDModel new_id)
              end
        end
  end.

Definition list_user_bets (user_id : string) : M response :=
  items <- get_documents_bet user_id 200 ;;
  ret (BetItems (with_ids items)).

(** ["won" if b.get("outcome_key") == winning_key else "lost"] *)
Definition new_status (b : Bet.doc) (winning_key : string) : string :=
  if String.eqb (Bet.outcome_key b) winning_key then "won" else "lost".

(** The loop of [settle_market] over the bets found; [n] counts the readings
    of the clock made so far. *)
Fixpoint settle_bets (winning_key : string) (now : clock) (n : nat)
    (bets : list (ObjectId * Bet.doc)) : M unit :=
  match bets with
  | [] => ret ()
  | (i, b) :: bets' =>
      update_one_bet i (Bet.set_status (new_status b winning_key) (now n)) ;;;
      settle_bets winning_key now (S n) bets'
  end.

Definition settle_market (now : clock) (market_id : string) (payload : SettlePayload)
  : M response :=
  mid <- oid market_id ;;
  market <- find_one_market mid ;;
  match market with
  | None => raise (HTTPException 404 "Market not found")
  | Some market =>
      if negb (String.eqb (Market.status market) "open")
      then raise (HTTPException 400 "Market must be open to settle")
      else
        update_one_market mid
          (Market.set_settled (settled_outcome_key payload) (now 0%nat)) ;;;
        let winning_key := settled_outcome_key payload in
        bets <- find_bets market_id ;;
        settle_bets winning_key now 1 bets ;;;
        ret StatusOk
  end.

(** *** Requests and runs *)

Inductive request : Type :=
| ReqCreateUser (payload : CreateUser)
| ReqCreateMarket (payload : CreateMarket)
| ReqListMarkets (game_type : option string)
| ReqPlaceBet (payload : PlaceBet)
| ReqListUserBets (user_id : string)
| ReqSettleMarket (market_id : string) (payload : SettlePayload).

(** One request served: [new_id] is the id the driver picks should the
    request insert a document, [now] the clock readings made meanwhile. *)
Definition handle (new_id : ObjectId) (now : clock) (r : request) : M response :=
  match r with
  | ReqCreateUser p => create_user new_id now p
  | ReqCreateMarket p => create_market new_id now p
  | ReqListMarkets game_type => list_markets game_type
  | ReqPlaceBet p => place_bet new_id now p
  | ReqListUserBets user_id => list_user_bets user_id
  | ReqSettleMarket market_id p => settle_market now market_id p
  end.

(** The store after a sequence of requests, whether each succeeded or not. *)
Fixpoint run (rs : list (ObjectId * clock * request)) (db : DB) : DB :=
  match rs with
  | [] => db
  | (new_id, now, r) :: rs' => run rs' (handle new_id now r db).2
  end.

(** The stores the service can be in: started empty, changed by requests only. *)
Inductive reachable : DB → Prop :=
| reachable_empty : reachable empty_db
| reachable_step db new_id now r :
    reachable db → reachable (handle new_id now r db).2.

(** *** Vocabulary of the properties *)


(** The keys of the outcomes of a market, as [o.get("key")] reads them. *)
Definition outcome_keys (outcomes : list dict) : list value :=
  (λ o, dict_get o "key") <$> outcomes.



(** The stored bets of a user, and the stored markets of a game type, as the
    two listings filter them. *)
Definition bets_of_user (user_id : string) (db : DB) : list (ObjectId * Bet.doc) :=
  filter (λ p, Bet.user_id p.2 = user_id) (map_to_list (bet db)).

Definition markets_of_type (g : string) (db : DB) : list (ObjectId * Market.doc) :=
  filter (λ p, Market.game_type p.2 = g) (map_to_list (market db)).

(** A market record as the handlers leave it: one of the three game types,
    outcomes that all carry the three fields, and either open with nothing
    recorded about a settlement, or settled with its key and its time. *)
Definition market_wf (m : Market.doc) : Prop :=
  Market.game_type m ∈ ["cricket"; "matka"; "other"] ∧
  Market.outcomes m ≠ [] ∧
  Forall (λ o, has_outcome_fields o = true) (Market.outcomes m) ∧
  ((Market.status m = "open" ∧
    Market.settled_outcome_key m = None ∧ Market.settled_at m = None) ∨
   (Market.status m = "settled" ∧
    is_Some (Market.settled_outcome_key m) ∧ is_Some (Market.settled_at m))).

(** A bet record as the handlers leave it: it names a stored market, and it
    is pending and never updated, or won on a market settled for its key, or
    lost on a market settled for another key. *)
Definition bet_wf (db : DB) (b : Bet.doc) : Prop :=
  ∃ mid m,
    ObjectId_of_str (Bet.market_id b) = Some mid ∧
    market db !! mid = Some m ∧
    ((Bet.status b = "pending" ∧ Bet.updated_at b = None) ∨
     (Bet.status b = "won" ∧ is_Some (Bet.updated_at b) ∧
      Market.status m = "settled" ∧
      Market.settled_outcome_key m = Some (Bet.outcome_key b)) ∨
     (Bet.status b = "lost" ∧ is_Some (Bet.updated_at b) ∧
      Market.status m = "settled" ∧
      ∃ k, Market.settled_outcome_key m = Some k ∧ k ≠ Bet.outcome_key b)).

(** A user record as the handlers leave it. *)
Definition user_wf (u : User.doc) : Prop :=
  User.is_active u = true ∧ User.balance u = 0%float.

Definition store_wf (db : DB) : Prop :=
  (∀ i u, user db !! i = Some u → user_wf u) ∧
  (∀ i m, market db !! i = Some m → market_wf m) ∧
  (∀ i b, bet db !! i = Some b → bet_wf db b).

End Handlers.

(** ** A concrete runtime for the examples *)

(** One hexadecimal digit, in either case. *)
Definition hex_digit (c : ascii) : option N :=
  let n := N_of_ascii c in
  if (48 <=? n)%N && (n <=? 57)%N then Some (n - 48)%N
  else if (97 <=? n)%N && (n <=? 102)%N then Some (n - 87)%N
  else if (65 <=? n)%N && (n <=? 70)%N then Some (n - 55)%N
  else None.

Fixpoint hex_value (acc : N) (s : string) : option N :=
  match s with
  | EmptyString => Some acc
  | String c s' =>
      match hex_digit c with
      | Some d => hex_value (16 * acc + d)%N s'
      | None => None
      end
  end.

(** An [ObjectId] is written as 24 hexadecimal digits. *)
Definition hex_ObjectId_of_str (s : string) : option ObjectId :=
  if (String.length s =? 24)%nat then hex_value 0 s else None.

Definition hex_char (d : N) : ascii :=
  ascii_of_N (if (d <? 10)%N then d + 48 else d + 87)%N.

Fixpoint hex_digits (n : nat) (i : N) (acc : string) : string :=
  match n with
  | O => acc
  | S n' => hex_digits n' (i / 16)%N (String (hex_char (i mod 16)%N) acc)
  end.

(** [str(ObjectId)]: 24 lower-case hexadecimal digits. *)
Definition hex_str_of_ObjectId (i : ObjectId) : string :=
  hex_digits 24 i EmptyString.

Definition dec_digit (c : ascii) : option Z :=
  let n := Z.of_N (N_of_ascii c) in
  if (48 <=? n) && (n <=? 57) then Some (n - 48) else None.

(** Digits [ds] read after [acc]; [k] counts the digits past the point once
    [frac] is set. Returns the integer read and the number of decimals. *)
Fixpoint dec_value (acc : Z) (k : Z) (frac : bool) (s : string) : option (Z * Z) :=
  match s with
  | EmptyString => Some (acc, k)
  | String c s' =>
      if Ascii.eqb c "."
      then (if frac then None else dec_value acc k true s')
      else match dec_digit c with
           | Some d => dec_value (10 * acc + d) (if frac then k + 1 else k) frac s'
           | None => None
           end
  end.

(** Plain decimal literals ([-12.5], [3], [0.25]), correctly rounded; the
    examples need no other spelling of a number. *)
Definition dec_float_of_str (s : string) : option float :=
  let '(neg, body) :=
    match s with
    | String "-" s' => (true, s')
    | String "+" s' => (false, s')
    | _ => (false, s)
    end in
  match body with
  | EmptyString | String "." EmptyString => None
  | _ =>
      match dec_value 0 0 false body with
      | Some (n, k) =>
          Some (SF2Prim (SFdiv prec emax (SF_of_Z neg n) (SF_of_Z false (10 ^ k))))
      | None => None
      end
  end.

#[export] Instance runtime : Externals := {|
  ObjectId_of_str := hex_ObjectId_of_str;
  str_of_ObjectId := hex_str_of_ObjectId;
  float_of_str := dec_float_of_str
|}.

(** ** A worked scenario *)

(** [{key, label, odds}] *)
Definition outcome (key label : string) (odds : value) : dict :=
  {[ "key" := VStr key; "label" := VStr label; "odds" := odds ]}.

Definition example_clock : nat → Z := λ n, 1700000000000000 + Z.of_nat n.

Definition cricket_payload : CreateMarket :=
  {| cm_game_type := "cricket";
     cm_title := "A vs B";
     cm_outcomes := [outcome "A" "Team A" (VFloat 1.8); outcome "B" "Team B" (VFloat 2)];
     cm_start_time := None |}.

Definition market_1 : string := "000000000000000000000001".
Definition user_2 : string := "000000000000000000000002".

Definition bet_on (key : string) (stake : float) : PlaceBet :=
  {| pb_user_id := user_2;
     pb_market_id := market_1;
     pb_outcome_key := key;
     pb_stake := stake |}.

(** A market, a user, 100 on "A" and 50 on "B". *)
Definition example_requests : list (N * (nat → Z) * request) :=
  [ (1%N, example_clock, ReqCreateMarket cricket_payload);
    (2%N, example_clock, ReqCreateUser {| cu_username := "asha"; cu_email := None |});
    (3%N, example_clock, ReqPlaceBet (bet_on "A" 100));
    (4%N, example_clock, ReqPlaceBet (bet_on "B" 50)) ].

Definition example_db : DB := run example_requests empty_db.

(** The same store once the market is settled for "A". *)
Definition settled_db : DB :=
  run [(5%N, example_clock, ReqSettleMarket market_1 {| settled_outcome_key := "A" |})]
      example_db.

(** Requests that may follow: a further bet, a settlement, a second
    settlement and a creation under a used id. *)
Definition later_requests : list (N * (nat → Z) * request) :=
  [ (6%N, example_clock, ReqPlaceBet (bet_on "B" 10));
    (7%N, example_clock, ReqSettleMarket market_1 {| settled_outcome_key := "B" |});
    (8%N, example_clock, ReqSettleMarket market_1 {| settled_outcome_key := "A" |});
    (1%N, example_clock, ReqCreateMarket cricket_payload) ].

(** A market under the id [0x0a], and 20 on "A" placed under the lower-case
    spelling of that id. *)
Definition market_a : string := "00000000000000000000000a".
Definition market_A : string := "00000000000000000000000A".

Definition spelling_requests : list (N * (nat → Z) * request) :=
  [ (10%N, example_clock, ReqCreateMarket cricket_payload);
    (2%N, example_clock, ReqCreateUser {| cu_username := "asha"; cu_email := None |});
    (3%N, example_clock,
     ReqPlaceBet {| pb_user_id := user_2; pb_market_id := market_a;
                    pb_outcome_key := "A"; pb_stake := 20 |}) ].

Definition spelling_db : DB := run spelling_requests empty_db.

(** The store with the market and the user of the scenario, and no bet. *)
Definition opened_db : DB := run (take 2 example_requests) empty_db.

(** The settlement of the scenario and the requests that may follow it. *)
Definition settling_requests : list (N * (nat → Z) * request) :=
  (5%N, example_clock, ReqSettleMarket market_1 {| settled_outcome_key := "A" |})
  :: later_requests.

(** Two outcomes under one key. *)
Definition duplicate_keys_payload : CreateMarket :=
  {| cm_game_type := "matka";
     cm_title := "Draw";
     cm_outcomes := [outcome "A" "first" (VFloat 1.5); outcome "A" "second" (VFloat 3)];
     cm_start_time := None |}.

(** A market with the key "A" on its second and third outcomes, and a user. *)
Definition repeated_key_payload : CreateMarket :=
  {| cm_game_type := "matka";
     cm_title := "Draw";
     cm_outcomes := [outcome "B" "other" (VFloat 2);
                     outcome "A" "first" (VFloat 1.5);
                     outcome "A" "second" (VFloat 3)];
     cm_start_time := None |}.

Definition duplicate_keys_db : DB :=
  run [ (1%N, example_clock, ReqCreateMarket repeated_key_payload);
        (2%N, example_clock, ReqCreateUser {| cu_username := "asha"; cu_email := None |}) ]
      empty_db.

(** A game type that is none of the three, no outcome, and an outcome without
    odds after a complete one. *)
Definition bad_type_payload : CreateMarket :=
  {| cm_game_type := "chess"; cm_title := "A vs B";
     cm_outcomes := [outcome "A" "Team A" (VFloat 1.8)]; cm_start_time := None |}.

Definition no_outcome_payload : CreateMarket :=
  {| cm_game_type := "other"; cm_title := "A vs B";
     cm_outcomes := []; cm_start_time := None |}.

Definition incomplete_payload : CreateMarket :=
  {| cm_game_type := "other"; cm_title := "A vs B";
     cm_outcomes := [outcome "A" "Team A" (VFloat 1.8);
                     {[ "key" := VStr "B"; "label" := VStr "Team B" ]}];
     cm_start_time := None |}.

(** An outcome at odds 0.5. *)
Definition low_odds_payload : CreateMarket :=
  {| cm_game_type := "cricket";
     cm_title := "A vs B";
     cm_outcomes := [outcome "A" "Team A" (VFloat 0.5)];
     cm_start_time := None |}.

(** An outcome whose odds is [null]. *)
Definition null_odds_payload : CreateMarket :=
  {| cm_game_type := "cricket";
     cm_title := "A vs B";
     cm_outcomes := [outcome "A" "Team A" VNone];
     cm_start_time := None |}.

(** * Properties *)

(** ** Rounding to two decimals *)





(** ** The float of an integer *)




Section Properties.

Context `{Externals}.

(** ** The settlement loop *)

Lemma settle_bets_cons (k : string) (now : nat → Z) (n : nat) (j : N)
    (bj : Bet.doc) (l : list (N * Bet.doc)) (db : DB) :
  settle_bets k now n ((j, bj) :: l) db
  = settle_bets k now (S n) l
      {| user := user db; market := market db;
         bet := alter (Bet.set_status (new_status bj k) (now n)) j (bet db) |}.
Proof. reflexivity. Qed.

Lemma settle_bets_spec (k : string) (now : nat → Z) (l : list (N * Bet.doc)) :
  ∀ (n : nat) (db : DB),
    NoDup l.*1 →
    (settle_bets k now n l db).1 = inr () ∧
    user (settle_bets k now n l db).2 = user db ∧
    market (settle_bets k now n l db).2 = market db ∧
    ∀ i : N,
      (i ∉ l.*1 → bet (settle_bets k now n l db).2 !! i = bet db !! i) ∧
      (∀ b, (i, b) ∈ l →
            ∃ t, bet (settle_bets k now n l db).2 !! i
                 = Bet.set_status (new_status b k) t <$> bet db !! i).
Proof.
  induction l as [|[j bj] l IH]; intros n db Hnd.
  - do 3 (split; [done|]). intros i. split; [done|].
    intros b Hb. by apply elem_of_nil in Hb.
  - rewrite fmap_cons in Hnd. apply NoDup_cons in Hnd as [Hj Hnd]. simpl in Hj.
    rewrite settle_bets_cons.
    set (db1 := {| user := user db; market := market db;
                   bet := alter (Bet.set_status (new_status bj k) (now n)) j (bet db) |}).
    destruct (IH (S n) db1 Hnd) as (Hok & Hu & Hm & Hb).
    destruct (settle_bets k now (S n) l db1) as [[e|[]] db2] eqn:E; [done|].
    cbn [fst snd] in *. do 3 (split; [done|]). intros i. split.
    + intros Hi. rewrite fmap_cons in Hi. apply not_elem_of_cons in Hi as [Hij Hi].
      simpl in Hij. destruct (Hb i) as [Hx _]. rewrite Hx by done.
      subst db1; cbn [bet].
      by rewrite lookup_alter_ne by congruence.
    + intros b Hin. apply elem_of_cons in Hin as [Heq|Hin].
      * injection Heq as -> ->. destruct (Hb j) as [Hx _]. rewrite Hx by done.
        subst db1; cbn [bet]. exists (now n). by rewrite lookup_alter_eq.
      * assert (i ≠ j) as Hij.
        { intros ->. apply Hj. apply list_elem_of_fmap. by exists (j, b). }
        destruct (Hb i) as [_ Hi]. destruct (Hi b Hin) as [t ->].
        exists t. subst db1; cbn [bet]. by rewrite lookup_alter_ne by congruence.
Qed.

(** ** What a settlement does *)

(** The bets a settlement finds are the stored bets with that [market_id],
    each once. *)
Lemma find_bets_spec (market_id : string) (db : DB) :
  ∃ l, find_bets market_id db = (inr l, db) ∧ NoDup l.*1 ∧
       ∀ i b, (i, b) ∈ l ↔ bet db !! i = Some b ∧ Bet.market_id b = market_id.
Proof.
  eexists. split; [reflexivity|]. split.
  - apply (sublist_NoDup _ (map_to_list (bet db)).*1).
    + apply NoDup_fst_map_to_list.
    + apply fmap_sublist, sublist_filter.
  - intros i b. rewrite list_elem_of_filter, elem_of_map_to_list. cbn. tauto.
Qed.

(** Settling an open market: the answer is [ok], the market record is set to
    settled, and the bets with that [market_id], and only they, are resolved. *)
Lemma settle_market_open (now : nat → Z) (market_id : string)
    (payload : SettlePayload) (db : DB) (mid : N) (m : Market.doc) :
  ObjectId_of_str market_id = Some mid →
  market db !! mid = Some m →
  Market.status m = "open" →
  let k := settled_outcome_key payload in
  let out := settle_market now market_id payload db in
  out.1 = inr StatusOk ∧
  user out.2 = user db ∧
  market out.2 = alter (Market.set_settled k (now 0%nat)) mid (market db) ∧
  ∀ i : N,
    (bet db !! i = None → bet out.2 !! i = None) ∧
    (∀ b, bet db !! i = Some b → Bet.market_id b ≠ market_id →
          bet out.2 !! i = Some b) ∧
    (∀ b, bet db !! i = Some b → Bet.market_id b = market_id →
          ∃ t, bet out.2 !! i = Some (Bet.set_status (new_status b k) t b)).
Proof.
  intros Hid Hm Hst k out. subst out.
  pose (db1 := {| user := user db;
                  market := alter (Market.set_settled k (now 0%nat)) mid (market db);
                  bet := bet db |}).
  destruct (find_bets_spec market_id db1) as (l & Hl & Hnd & Hin).
  assert (settle_market now market_id payload db
          = match settle_bets k now 1 l db1 with
            | (inl e, db') => (inl e, db')
            | (inr _, db') => (inr StatusOk, db')
            end) as ->.
  { unfold settle_market, oid, bind. rewrite Hid. cbn [ret find_one_market].
    rewrite Hm, Hst. cbn [String.eqb Ascii.eqb Bool.eqb negb update_one_market].
    fold db1. unfold find_bets in *. injection Hl as <-. reflexivity. }
  destruct (settle_bets_spec k now l 1 db1 Hnd) as (Hok & Hu & Hmk & Hb).
  destruct (settle_bets k now 1 l db1) as [[e|[]] db2]; [done|].
  cbn [fst snd] in *. do 3 (split; [done|]). intros i.
  destruct (Hb i) as [Hout Hfound]. split; [|split].
  - intros Hnone. rewrite Hout; [done|]. intros Hi.
    apply list_elem_of_fmap in Hi as ([i' b] & -> & Hi). apply Hin in Hi as [Hi _].
    cbn in Hi, Hnone. congruence.
  - intros b Hb0 Hne. rewrite Hout; [done|]. intros Hi.
    apply list_elem_of_fmap in Hi as ([i' b'] & -> & Hi). apply Hin in Hi as [Hi Heq].
    cbn in Hi, Hb0. congruence.
  - intros b Hb0 Heq. destruct (Hfound b) as [t Ht]; [by apply Hin|].
    exists t. rewrite Ht. cbn. by rewrite Hb0.
Qed.

(** A settlement either raises and leaves the store as it was, or finds the
    market open. *)
Lemma settle_market_inv (now : nat → Z) (market_id : string)
    (payload : SettlePayload) (db : DB) :
  (∃ e, settle_market now market_id payload db = (inl e, db)) ∨
  (∃ mid m, ObjectId_of_str market_id = Some mid ∧ market db !! mid = Some m ∧
            Market.status m = "open").
Proof.
  unfold settle_market, oid, bind.
  destruct (ObjectId_of_str market_id) as [mid|] eqn:Hid; [|left; by eexists].
  cbn [ret find_one_market].
  destruct (market db !! mid) as [m|] eqn:Hm; [|left; by eexists].
  destruct (String.eqb (Market.status m) "open") eqn:Hst; [|left; by eexists].
  right. exists mid, m. by apply String.eqb_eq in Hst.
Qed.

(** ** What the other handlers do *)

Lemma create_user_inv (new_id : N) (now : nat → Z) (payload : CreateUser) (db : DB) :
  (∃ e, create_user new_id now payload db = (inl e, db)) ∨
  (∃ r u, user db !! new_id = None ∧
          create_user new_id now payload db
          = (inr r, {| user := <[new_id := u]> (user db);
                       market := market db; bet := bet db |})).
Proof.
  unfold create_user, bind, create_document_user.
  destruct (user db !! new_id) eqn:Hu; [left; by eexists|].
  right. by do 2 eexists.
Qed.

Lemma check_outcomes_ok (os : list dict) (db : DB) :
  Forall (λ o, has_outcome_fields o = true) os →
  check_outcomes os db = (inr (), db).
Proof.
  induction 1 as [|o os Ho _ IH]; [done|]. cbn [check_outcomes]. by rewrite Ho.
Qed.

Lemma check_outcomes_inv (os : list dict) (db : DB) :
  (∃ e, check_outcomes os db = (inl e, db)) ∨
  (check_outcomes os db = (inr (), db) ∧
   Forall (λ o, has_outcome_fields o = true) os).
Proof.
  induction os as [|o os IH]; [right; by split|]. cbn [check_outcomes].
  destruct (has_outcome_fields o) eqn:Ho; [|left; by eexists].
  destruct IH as [IH|[IH Hall]]; [by left|]. right. split; [done|]. by constructor.
Qed.

(** Creation looks at the game type, at the list being non-empty and at the
    three fields being present, and at nothing else. *)
Lemma create_market_accepts (new_id : N) (now : nat → Z) (payload : CreateMarket)
    (db : DB) :
  cm_game_type payload ∈ ["cricket"; "matka"; "other"] →
  cm_outcomes payload ≠ [] →
  Forall (λ o, has_outcome_fields o = true) (cm_outcomes payload) →
  market db !! new_id = None →
  create_market new_id now payload db
  = (inr (IDModel (str_of_ObjectId new_id)),
     {| user := user db;
        market := <[new_id := new_market now payload]> (market db);
        bet := bet db |}).
Proof.
  intros Hgt Hne Hall Hfresh. unfold create_market, bind.
  rewrite bool_decide_true by done. rewrite bool_decide_false by done.
  cbn [negb]. rewrite check_outcomes_ok by done.
  unfold create_document_market. by rewrite Hfresh.
Qed.

Lemma create_market_inv (new_id : N) (now : nat → Z) (payload : CreateMarket)
    (db : DB) :
  (∃ e, create_market new_id now payload db = (inl e, db)) ∨
  (market db !! new_id = None ∧
   cm_game_type payload ∈ ["cricket"; "matka"; "other"] ∧
   cm_outcomes payload ≠ [] ∧
   Forall (λ o, has_outcome_fields o = true) (cm_outcomes payload) ∧
   create_market new_id now payload db
   = (inr (IDModel (str_of_ObjectId new_id)),
      {| user := user db;
         market := <[new_id := new_market now payload]> (market db);
         bet := bet db |})).
Proof.
  destruct (decide (cm_game_type payload ∈ ["cricket"; "matka"; "other"])) as [Hgt|Hgt];
    [|left; unfold create_market; rewrite bool_decide_false by done; by eexists].
  destruct (decide (cm_outcomes payload = [])) as [Hne|Hne];
    [left; unfold create_market; rewrite bool_decide_true by done;
     rewrite bool_decide_true by done; by eexists|].
  destruct (check_outcomes_inv (cm_outcomes payload) db) as [[e He]|[Hok Hall]].
  { left. unfold create_market, bind. rewrite bool_decide_true by done.
    rewrite bool_decide_false by done. cbn [negb]. rewrite He. by eexists. }
  destruct (market db !! new_id) eqn:Hfresh.
  { left. unfold create_market, bind. rewrite bool_decide_true by done.
    rewrite bool_decide_false by done. cbn [negb]. rewrite Hok.
    unfold create_document_market. rewrite Hfresh. by eexists. }
  right. do 4 (split; [done|]). by apply create_market_accepts.
Qed.

(** The two conversions of the odds in [place_bet] read the same value. *)
Lemma odds_read_twice (outcome : dict) (f1 f2 : float) :
  py_float (dict_get_default outcome "odds" (VFloat 1%float)) = inr f1 →
  py_float (dict_get outcome "odds") = inr f2 →
  f1 = f2.
Proof.
  unfold dict_get_default, dict_get.
  destruct (outcome !! "odds") as [v|]; cbn; [congruence|discriminate].
Qed.

Lemma place_bet_inv (new_id : N) (now : nat → Z) (payload : PlaceBet) (db : DB) :
  (∃ e, place_bet new_id now payload db = (inl e, db)) ∨
  (∃ mid m o uid u f,
     ObjectId_of_str (pb_market_id payload) = Some mid ∧
     market db !! mid = Some m ∧
     Market.status m = "open" ∧
     find_outcome (Market.outcomes m) (pb_outcome_key payload) = Some o ∧
     ObjectId_of_str (pb_user_id payload) = Some uid ∧
     user db !! uid = Some u ∧
     py_float (dict_get o "odds") = inr f ∧
     bet db !! new_id = None ∧
     place_bet new_id now payload db
     = (inr (IDModel (str_of_ObjectId new_id)),
        {| user := user db; market := market db;
           bet := <[new_id := new_bet now payload f
                               (py_round2 (pb_stake payload * f)%float)]> (bet db) |})).
Proof.
  unfold place_bet, oid, bind, ret, raise, lift, find_one_market, find_one_user,
    create_document_bet.
  destruct (ObjectId_of_str (pb_market_id payload)) as [mid|] eqn:Hid;
    [|left; by eexists].
  cbv beta iota zeta.
  destruct (market db !! mid) as [m|] eqn:Hm; [|left; by eexists].
  destruct (String.eqb (Market.status m) "open") eqn:Hst; [|left; by eexists].
  apply String.eqb_eq in Hst. cbv beta iota zeta. cbn [negb].
  destruct (find_outcome (Market.outcomes m) (pb_outcome_key payload)) as [o|] eqn:Ho;
    [|left; by eexists].
  destruct (bool_decide (o = ∅)); [left; by eexists|].
  destruct (ObjectId_of_str (pb_user_id payload)) as [uid|] eqn:Huid;
    [|left; by eexists].
  cbv beta iota zeta.
  destruct (user db !! uid) as [u|] eqn:Hu; [|left; by eexists].
  destruct (py_float (dict_get_default o "odds" (VFloat 1))) as [e1|f1] eqn:Hf1;
    [left; by eexists|].
  cbv beta iota zeta.
  destruct (py_float (dict_get o "odds")) as [e2|f2] eqn:Hf2; [left; by eexists|].
  assert (f1 = f2) as -> by eauto using odds_read_twice.
  cbv beta iota zeta.
  destruct (bet db !! new_id) eqn:Hfresh; [left; by eexists|].
  right. exists mid, m, o, uid, u, f2. by repeat (split; [done|]).
Qed.

(** ** What any request leaves in place *)

(** The two listings read the store and leave it as it was. *)
Lemma list_markets_store (game_type : option string) (db : DB) :
  (list_markets game_type db).2 = db.
Proof. reflexivity. Qed.

Lemma list_user_bets_store (user_id : string) (db : DB) :
  (list_user_bets user_id db).2 = db.
Proof. reflexivity. Qed.




(** Users are never rewritten. *)
Lemma handle_users (new_id : N) (now : nat → Z) (r : request) (db : DB) (i : N)
    (u : User.doc) :
  user db !! i = Some u → user (handle new_id now r db).2 !! i = Some u.
Proof.
  intros Hu. destruct r as [p|p|g|p|uid0|market_id p]; cbn [handle];
    rewrite ?list_markets_store, ?list_user_bets_store;
    [ | | done | | done | ].
  - destruct (create_user_inv new_id now p db) as [[e ->]|(r & u' & Hfresh & ->)];
      [done|]. cbn. rewrite lookup_insert_ne; [done|congruence].
  - destruct (create_market_inv new_id now p db) as [[e ->]|(_ & _ & _ & _ & ->)]; done.
  - destruct (place_bet_inv new_id now p db)
      as [[e ->]|(?&?&?&?&?&?&_&_&_&_&_&_&_&_& ->)]; done.
  - destruct (settle_market_inv now market_id p db) as [[e ->]|(mid & m & Hid & Hm & Hst)];
      [done|].
    destruct (settle_market_open now market_id p db mid m Hid Hm Hst) as (_ & -> & _).
    done.
Qed.

(** A stored market keeps its outcomes, and keeps the status "settled" once it
    has it; the only change a request makes to a market is to settle it. *)
Lemma handle_markets (new_id : N) (now : nat → Z) (r : request) (db : DB) (i : N)
    (m : Market.doc) :
  market db !! i = Some m →
  ∃ m', market (handle new_id now r db).2 !! i = Some m' ∧
        Market.outcomes m' = Market.outcomes m ∧
        (Market.status m = "settled" → Market.status m' = "settled").
Proof.
  intros Hm. destruct r as [p|p|g|p|uid0|market_id p]; cbn [handle];
    rewrite ?list_markets_store, ?list_user_bets_store;
    [ | | by exists m | | by exists m | ].
  - destruct (create_user_inv new_id now p db) as [[e ->]|(r & u' & Hfresh & ->)];
      by exists m.
  - destruct (create_market_inv new_id now p db) as [[e ->]|(Hfresh & _ & _ & _ & ->)];
      [by exists m|].
    exists m. cbn. rewrite lookup_insert_ne; [done|congruence].
  - destruct (place_bet_inv new_id now p db)
      as [[e ->]|(?&?&?&?&?&?&_&_&_&_&_&_&_&_& ->)]; by exists m.
  - destruct (settle_market_inv now market_id p db) as [[e ->]|(mid & m0 & Hid & Hm0 & Hst)];
      [by exists m|].
    destruct (settle_market_open now market_id p db mid m0 Hid Hm0 Hst) as (_ & _ & -> & _).
    destruct (decide (mid = i)) as [->|Hne].
    + rewrite lookup_alter_eq, Hm. cbn. by eexists.
    + rewrite lookup_alter_ne by done. by exists m.
Qed.




Lemma run_app (rs1 rs2 : list (N * (nat → Z) * request)) (db : DB) :
  run (rs1 ++ rs2) db = run rs2 (run rs1 db).
Proof.
  revert db. induction rs1 as [|[[new_id now] r] rs1 IH]; intros db; [done|].
  cbn [app run]. apply IH.
Qed.

Lemma reachable_run (rs : list (N * (nat → Z) * request)) (db : DB) :
  reachable db → reachable (run rs db).
Proof.
  revert db. induction rs as [|[[new_id now] r] rs IH]; intros db Hdb; [done|].
  cbn [run]. apply IH. by constructor.
Qed.


(** Whatever requests follow, a settled market stays stored and settled. *)
Lemma run_markets_settled (rs : list (N * (nat → Z) * request)) (db : DB) (i : N)
    (m : Market.doc) :
  market db !! i = Some m →
  Market.status m = "settled" →
  ∃ m', market (run rs db) !! i = Some m' ∧
        Market.status m' = "settled" ∧
        Market.outcomes m' = Market.outcomes m.
Proof.
  revert db m. induction rs as [|[[new_id now] r] rs IH]; intros db m Hm Hst.
  - by exists m.
  - cbn [run]. destruct (handle_markets new_id now r db i m Hm) as (m1 & Hm1 & Ho1 & Hs1).
    destruct (IH _ _ Hm1 (Hs1 Hst)) as (m2 & Hm2 & Hs2 & Ho2). exists m2.
    split; [done|]. split; [done|]. congruence.
Qed.

(** ** Settlement *)


(** C2. A settlement request on a stored market that is not open is refused
    with the market-not-open error, and the whole store (the market record and
    every bet with it) is what it was. *)
Theorem settle_market_not_open (now : nat → Z) (market_id : string)
    (payload : SettlePayload) (db : DB) (mid : N) (m : Market.doc) :
  ObjectId_of_str market_id = Some mid →
  market db !! mid = Some m →
  Market.status m ≠ "open" →
  settle_market now market_id payload db
  = (inl (HTTPException 400 "Market must be open to settle"), db) ∧
  error_kind_of (HTTPException 400 "Market must be open to settle")
  = Some MarketNotOpen.
Proof.
  intros Hid Hm Hst. split; [|done].
  unfold settle_market, oid, bind. rewrite Hid. cbn [ret find_one_market].
  rewrite Hm. by apply String.eqb_neq in Hst as ->.
Qed.

(** X3. The bets are found by the id string of the request: when the market
    is settled under one spelling of its id, a bet stored under another
    spelling of the same id is left as it was, the market being settled all
    the same. *)
Theorem settle_market_other_spelling (now : nat → Z) (market_id : string)
    (payload : SettlePayload) (db : DB) (mid i : N) (m : Market.doc) (b : Bet.doc) :
  ObjectId_of_str market_id = Some mid →
  market db !! mid = Some m →
  Market.status m = "open" →
  bet db !! i = Some b →
  ObjectId_of_str (Bet.market_id b) = Some mid →
  Bet.market_id b ≠ market_id →
  let out := settle_market now market_id payload db in
  out.1 = inr StatusOk ∧
  (∃ m', market out.2 !! mid = Some m' ∧ Market.status m' = "settled") ∧
  bet out.2 !! i = Some b.
Proof.
  intros Hid Hm Hst Hb _ Hne out.
  destruct (settle_market_open now market_id payload db mid m Hid Hm Hst)
    as (Hok & _ & Hmk & Hbets).
  fold out in Hok, Hmk, Hbets. split; [done|]. split.
  - rewrite Hmk, lookup_alter_eq, Hm. by eexists.
  - by apply (Hbets i).
Qed.


(** ** Bet placement *)

(** C4. A bet on a stored market that is not open is refused with the
    market-not-open error and stores nothing, whatever the outcome key, the
    stake and the user id of the request. *)
Theorem place_bet_market_not_open (new_id : N) (now : nat → Z) (payload : PlaceBet)
    (db : DB) (mid : N) (m : Market.doc) :
  ObjectId_of_str (pb_market_id payload) = Some mid →
  market db !! mid = Some m →
  Market.status m ≠ "open" →
  place_bet new_id now payload db = (inl (HTTPException 400 "Market is not open"), db) ∧
  error_kind_of (HTTPException 400 "Market is not open") = Some MarketNotOpen.
Proof.
  intros Hid Hm Hst. split; [|done].
  unfold place_bet, oid, bind. rewrite Hid. cbn [ret find_one_market].
  rewrite Hm. by apply String.eqb_neq in Hst as ->.
Qed.

(** A bet is stored as soon as the market is open, the key is one of its
    outcomes, the user exists and the odds convert: the stake is not looked
    at. *)
Lemma place_bet_accepts (new_id : N) (now : nat → Z) (payload : PlaceBet) (db : DB)
    (mid uid : N) (m : Market.doc) (o : dict) (u : User.doc) (f : float) :
  ObjectId_of_str (pb_market_id payload) = Some mid →
  market db !! mid = Some m →
  Market.status m = "open" →
  find_outcome (Market.outcomes m) (pb_outcome_key payload) = Some o →
  ObjectId_of_str (pb_user_id payload) = Some uid →
  user db !! uid = Some u →
  py_float (dict_get o "odds") = inr f →
  bet db !! new_id = None →
  place_bet new_id now payload db
  = (inr (IDModel (str_of_ObjectId new_id)),
     {| user := user db; market := market db;
        bet := <[new_id := new_bet now payload f
                             (py_round2 (pb_stake payload * f)%float)]> (bet db) |}).
Proof.
  intros Hid Hm Hst Ho Huid Hu Hf Hfresh.
  destruct (place_bet_inv new_id now payload db)
    as [[e He]|(mid' & m' & o' & uid' & u' & f' & Hid' & Hm' & _ & Ho' & _ & _ & Hf' & _ & ->)].
  - exfalso. revert He.
    unfold place_bet, oid, bind, ret, raise, lift, find_one_market, find_one_user,
      create_document_bet.
    rewrite Hid. cbv beta iota zeta. rewrite Hm, Hst. cbn [String.eqb Ascii.eqb Bool.eqb negb].
    rewrite Ho. rewrite bool_decide_false.
    2:{ intros ->. unfold dict_get in Hf. by rewrite lookup_empty in Hf. }
    rewrite Huid. cbv beta iota zeta. rewrite Hu.
    assert (py_float (dict_get_default o "odds" (VFloat 1)) = inr f) as ->.
    { revert Hf. unfold dict_get, dict_get_default.
      by destruct (o !! "odds"). }
    cbv beta iota zeta. rewrite Hf. cbv beta iota zeta. by rewrite Hfresh.
  - do 3 f_equal. congruence.
Qed.

(** The exceptions of [place_bet]: none stands for an invalid stake. *)
Lemma place_bet_never_invalid_stake (new_id : N) (now : nat → Z) (payload : PlaceBet)
    (db : DB) (e : exn) :
  (place_bet new_id now payload db).1 = inl e →
  error_kind_of e ≠ Some InvalidStake.
Proof.
  destruct e as [code detail| | | |]; try done. cbn [error_kind_of].
  repeat case_match; done.
Qed.



(** X1. A bet on an open market for a key that none of its outcomes carries
    is refused as an invalid outcome and stores nothing, whoever the user is. *)
Theorem place_bet_invalid_outcome (new_id : N) (now : nat → Z) (payload : PlaceBet)
    (db : DB) (mid : N) (m : Market.doc) :
  ObjectId_of_str (pb_market_id payload) = Some mid →
  market db !! mid = Some m →
  Market.status m = "open" →
  Forall (λ o, py_eq_str (dict_get o "key") (pb_outcome_key payload) = false)
         (Market.outcomes m) →
  place_bet new_id now payload db = (inl (HTTPException 400 "Invalid outcome"), db) ∧
  error_kind_of (HTTPException 400 "Invalid outcome") = Some InvalidOutcome.
Proof.
  intros Hid Hm Hst Hkeys. split; [|done].
  unfold place_bet, oid, bind. rewrite Hid. cbn [ret find_one_market].
  rewrite Hm, Hst. cbn [String.eqb Ascii.eqb Bool.eqb negb].
  destruct (find_outcome (Market.outcomes m) (pb_outcome_key payload)) as [o|] eqn:Ho;
    [|done].
  unfold find_outcome in Ho. apply find_some in Ho as [Hin Hmatch].
  rewrite Forall_forall in Hkeys. apply list_elem_of_In in Hin.
  specialize (Hkeys o Hin). cbn beta in Hkeys. congruence.
Qed.

(** ** Market creation and the market life cycle *)

(** C5. A market that is created is stored with status "open" under an id
    that was free, every other market being left as it was; and whatever
    requests follow (creations, bets, settlements, accepted or refused), a
    market whose status is "settled" stays stored with status "settled". *)
Theorem market_status_monotonic :
  (∀ (new_id : N) (now : nat → Z) (payload : CreateMarket) (db db' : DB) (r : response),
     create_market new_id now payload db = (inr r, db') →
     market db !! new_id = None ∧
     (∃ m, market db' !! new_id = Some m ∧ Market.status m = "open") ∧
     ∀ i, i ≠ new_id → market db' !! i = market db !! i) ∧
  (∀ (rs : list (N * (nat → Z) * request)) (db : DB) (i : N) (m : Market.doc),
     market db !! i = Some m →
     Market.status m = "settled" →
     ∃ m', market (run rs db) !! i = Some m' ∧ Market.status m' = "settled").
Proof.
  split.
  - intros new_id now payload db db' r Hcreate.
    destruct (create_market_inv new_id now payload db)
      as [[e He]|(Hfresh & _ & _ & _ & Heq)]; [congruence|].
    rewrite Heq in Hcreate. injection Hcreate as _ <-. cbn [market].
    split; [done|]. split.
    + rewrite lookup_insert_eq. by eexists.
    + intros i Hi. by rewrite lookup_insert_ne.
  - intros rs db i m Hm Hst.
    destruct (run_markets_settled rs db i m Hm Hst) as (m' & Hm' & Hst' & _).
    by exists m'.
Qed.

(** C7 (as amended). With a game type among the three, a non-empty list of
    outcomes that all carry the fields key, label and odds, and a free id, the
    market is created: it is stored with status "open" and with the outcomes of
    the request, the same ones in the same order; so their keys are pairwise
    distinct exactly when those of the request are. *)
Theorem create_market_preserves_outcomes (new_id : N) (now : nat → Z)
    (payload : CreateMarket) (db : DB) :
  cm_game_type payload ∈ ["cricket"; "matka"; "other"] →
  cm_outcomes payload ≠ [] →
  Forall (λ o, has_outcome_fields o = true) (cm_outcomes payload) →
  market db !! new_id = None →
  let out := create_market new_id now payload db in
  out.1 = inr (IDModel (str_of_ObjectId new_id)) ∧
  ∃ m, market out.2 !! new_id = Some m ∧
       Market.status m = "open" ∧
       Market.outcomes m = cm_outcomes payload ∧
       (NoDup (outcome_keys (Market.outcomes m))
        ↔ NoDup (outcome_keys (cm_outcomes payload))).
Proof.
  intros Hgt Hne Hall Hfresh out. subst out.
  rewrite create_market_accepts by done. cbn [fst snd market].
  split; [done|]. rewrite lookup_insert_eq. eexists. split; [done|]. by repeat split.
Qed.

(** C10. Creation accepts an outcome whose odds is [null]: the market is
    stored with that outcome, and a bet on it, placed by a stored user under
    the id of the market, ends in the [TypeError] of the float conversion,
    which no error kind of the taxonomy stands for; nothing is stored. *)
Theorem non_numeric_odds_unhandled (market_oid bet_oid uid : N) (now now' : nat → Z)
    (db : DB) (user_id : string) (u : User.doc) (stake : float) :
  market db !! market_oid = None →
  ObjectId_of_str (str_of_ObjectId market_oid) = Some market_oid →
  ObjectId_of_str user_id = Some uid →
  user db !! uid = Some u →
  let created := create_market market_oid now null_odds_payload db in
  let bet_payload := {| pb_user_id := user_id;
                        pb_market_id := str_of_ObjectId market_oid;
                        pb_outcome_key := "A";
                        pb_stake := stake |} in
  created.1 = inr (IDModel (str_of_ObjectId market_oid)) ∧
  (∃ m o, market created.2 !! market_oid = Some m ∧
          Market.outcomes m = [o] ∧
          dict_get o "odds" = VNone ∧
          py_float (dict_get o "odds") = inl TypeError) ∧
  place_bet bet_oid now' bet_payload created.2 = (inl TypeError, created.2) ∧
  error_kind_of TypeError = None.
Proof.
  intros Hfresh Hround Huid Hu created bet_payload. subst created.
  rewrite create_market_accepts; [|set_solver|done| |done].
  2:{ repeat constructor. }
  cbn [fst snd market]. split; [done|]. split.
  { rewrite lookup_insert_eq. do 2 eexists. split; [done|]. by repeat split. }
  split; [|done].
  unfold place_bet, oid, bind, ret, raise, lift, find_one_market, find_one_user.
  cbn [pb_market_id pb_user_id pb_outcome_key bet_payload]. rewrite Hround.
  cbv beta iota zeta. cbn [market]. rewrite lookup_insert_eq.
  cbn [new_market Market.status String.eqb Ascii.eqb Bool.eqb negb Market.outcomes
       null_odds_payload cm_outcomes].
  assert (find_outcome [outcome "A" "Team A" VNone] "A"
          = Some (outcome "A" "Team A" VNone)) as -> by (vm_compute; reflexivity).
  assert (bool_decide (outcome "A" "Team A" VNone = ∅) = false) as ->
    by (vm_compute; reflexivity).
  rewrite Huid. cbv beta iota zeta. cbn [user]. rewrite Hu.
  assert (dict_get_default (outcome "A" "Team A" VNone) "odds" (VFloat 1) = VNone)
    as -> by (vm_compute; reflexivity).
  reflexivity.
Qed.

End Properties.

(** * Further properties of the handlers *)

Section MoreProperties.

Context `{Externals}.

(** ** Single steps *)

Lemma create_user_effect (new_id : N) (now : nat → Z) (payload : CreateUser) (db : DB) :
  user db !! new_id = None →
  create_user new_id now payload db
  = (inr (IDModel (str_of_ObjectId new_id)),
     {| user := <[new_id := {| User.username := cu_username payload;
                               User.email := cu_email payload;
                               User.created_at := now 0%nat;
                               User.is_active := true;
                               User.balance := 0 |}]> (user db);
        market := market db; bet := bet db |}).
Proof.
  intros Hfresh. unfold create_user, bind, create_document_user. by rewrite Hfresh.
Qed.

Lemma create_user_taken (new_id : N) (now : nat → Z) (payload : CreateUser) (db : DB) :
  is_Some (user db !! new_id) →
  create_user new_id now payload db = (inl DuplicateKeyError, db).
Proof.
  intros [u Hu]. unfold create_user, bind, create_document_user. by rewrite Hu.
Qed.

(** What one request does to the store: nothing, or one insertion under a
    free id, or the settlement of one open market. *)
Inductive step_effect (db db' : DB) : Prop :=
| effect_none : db' = db → step_effect db db'
| effect_user new_id u :
    user db !! new_id = None → user_wf u →
    db' = {| user := <[new_id := u]> (user db); market := market db; bet := bet db |} →
    step_effect db db'
| effect_market new_id now payload :
    market db !! new_id = None →
    cm_game_type payload ∈ ["cricket"; "matka"; "other"] →
    cm_outcomes payload ≠ [] →
    Forall (λ o, has_outcome_fields o = true) (cm_outcomes payload) →
    db' = {| user := user db;
             market := <[new_id := new_market now payload]> (market db);
             bet := bet db |} →
    step_effect db db'
| effect_bet new_id now payload mid m f :
    bet db !! new_id = None →
    ObjectId_of_str (pb_market_id payload) = Some mid →
    market db !! mid = Some m →
    Market.status m = "open" →
    db' = {| user := user db; market := market db;
             bet := <[new_id := new_bet now payload f
                                  (py_round2 (pb_stake payload * f)%float)]> (bet db) |} →
    step_effect db db'
| effect_settle market_id mid m k t :
    ObjectId_of_str market_id = Some mid →
    market db !! mid = Some m →
    Market.status m = "open" →
    user db' = user db →
    market db' = alter (Market.set_settled k t) mid (market db) →
    (∀ i, bet db !! i = None → bet db' !! i = None) →
    (∀ i b, bet db !! i = Some b → Bet.market_id b ≠ market_id →
            bet db' !! i = Some b) →
    (∀ i b, bet db !! i = Some b → Bet.market_id b = market_id →
            ∃ t', bet db' !! i = Some (Bet.set_status (new_status b k) t' b)) →
    step_effect db db'.

Lemma handle_effect (new_id : N) (now : nat → Z) (r : request) (db : DB) :
  step_effect db (handle new_id now r db).2.
Proof.
  destruct r as [p|p|g|p|uid0|market_id p]; cbn [handle].
  - destruct (user db !! new_id) eqn:Hu.
    + rewrite create_user_taken by done. by apply effect_none.
    + rewrite create_user_effect by done.
      eapply effect_user; [done| |reflexivity]. by split.
  - destruct (create_market_inv new_id now p db)
      as [[e ->]|(Hfresh & Hgt & Hne & Hall & ->)].
    + by apply effect_none.
    + by eapply effect_market.
  - by apply effect_none.
  - destruct (place_bet_inv new_id now p db)
      as [[e ->]|(mid & m & o & uid & u & f & Hid & Hm & Hst & _ & _ & _ & _ & Hfresh & ->)].
    + by apply effect_none.
    + by eapply effect_bet.
  - by apply effect_none.
  - destruct (settle_market_inv now market_id p db)
      as [[e ->]|(mid & m & Hid & Hm & Hst)]; [by apply effect_none|].
    destruct (settle_market_open now market_id p db mid m Hid Hm Hst)
      as (_ & Hu & Hmk & Hbets).
    eapply effect_settle; try done.
    + intros i. by apply (Hbets i).
    + intros i. by apply (Hbets i).
    + intros i. by apply (Hbets i).
Qed.

(** ** The shape of the stored records *)

Lemma new_market_wf (now : nat → Z) (payload : CreateMarket) :
  cm_game_type payload ∈ ["cricket"; "matka"; "other"] →
  cm_outcomes payload ≠ [] →
  Forall (λ o, has_outcome_fields o = true) (cm_outcomes payload) →
  market_wf (new_market now payload).
Proof. intros Hgt Hne Hall. do 3 (split; [done|]). by left. Qed.

Lemma set_settled_wf (k : string) (t : Z) (m : Market.doc) :
  market_wf m → market_wf (Market.set_settled k t m).
Proof.
  intros (Hgt & Hne & Hall & _). do 3 (split; [done|]). right. cbn. by eauto.
Qed.

Lemma step_effect_wf (db db' : DB) : store_wf db → step_effect db db' → store_wf db'.
Proof.
  intros (Hus & Hms & Hbs) Heff.
  destruct Heff as [->
                   |new_id u Hfresh Hu ->
                   |new_id now payload Hfresh Hgt Hne Hall ->
                   |new_id now payload mid m f Hfresh Hid Hm Hst ->
                   |market_id mid m k t Hid Hm Hst Hu Hmk Hnone Hother Hthis].
  - done.
  - split; [|split; [done|]].
    + intros i u'. cbn [user]. rewrite lookup_insert_Some.
      intros [[_ <-]|[_ Hi]]; [done|by eapply Hus].
    + intros i b Hb. apply (Hbs i b Hb).
  - split; [done|]. split.
    + intros i m'. cbn [market]. rewrite lookup_insert_Some.
      intros [[_ <-]|[_ Hi]]; [by apply new_market_wf|by eapply Hms].
    + intros i b Hb. destruct (Hbs i b Hb) as (mid & m & Hid & Hm & Hcase).
      exists mid, m. split; [done|]. split; [|done].
      cbn [market]. rewrite lookup_insert_ne; [done|congruence].
  - split; [done|]. split; [done|].
    intros i b. cbn [bet]. rewrite lookup_insert_Some.
    intros [[_ <-]|[_ Hb]]; [|by apply (Hbs i b)].
    exists mid, m. split; [done|]. split; [done|]. left. by split.
  - split; [by rewrite Hu|]. split.
    + intros i m'. rewrite Hmk. destruct (decide (mid = i)) as [<-|Hne].
      * rewrite lookup_alter_eq, Hm. intros [= <-].
        apply set_settled_wf. by eapply Hms.
      * rewrite lookup_alter_ne by done. by apply Hms.
    + intros i b' Hb'. destruct (bet db !! i) as [b|] eqn:Hb;
        [|rewrite (Hnone i Hb) in Hb'; done].
      destruct (Hbs i b Hb) as (mid_b & m_b & Hid_b & Hm_b & Hcase).
      destruct (decide (Bet.market_id b = market_id)) as [Heq|Hne].
      * destruct (Hthis i b Hb Heq) as [t' Ht']. rewrite Ht' in Hb'.
        injection Hb' as <-. exists mid, (Market.set_settled k t m).
        cbn [Bet.set_status Bet.market_id Bet.status Bet.updated_at Bet.outcome_key].
        split; [congruence|]. split; [by rewrite Hmk, lookup_alter_eq, Hm|].
        right. unfold new_status.
        destruct (String.eqb (Bet.outcome_key b) k) eqn:Hk.
        -- apply String.eqb_eq in Hk as ->. left. by eauto.
        -- apply String.eqb_neq in Hk. right. do 3 (split; [by eauto|]).
           exists k. split; [done|congruence].
      * rewrite (Hother i b Hb Hne) in Hb'. injection Hb' as <-.
        destruct (decide (mid = mid_b)) as [<-|Hmid].
        -- exists mid, (Market.set_settled k t m). split; [done|].
           split; [by rewrite Hmk, lookup_alter_eq, Hm|].
           rewrite Hm in Hm_b. injection Hm_b as <-.
           destruct Hcase as [Hp|[(_ & _ & Hs & _)|(_ & _ & Hs & _)]];
             [by left|congruence|congruence].
        -- exists mid_b, m_b. split; [done|]. split; [|done].
           rewrite Hmk. by rewrite lookup_alter_ne.
Qed.

Lemma empty_db_wf : store_wf empty_db.
Proof.
  split; [|split]; intros i x Hx; cbn in Hx; by rewrite lookup_empty in Hx.
Qed.

Lemma reachable_wf (db : DB) : reachable db → store_wf db.
Proof.
  induction 1 as [|db new_id now r _ IH]; [apply empty_db_wf|].
  eapply step_effect_wf; [exact IH|apply handle_effect].
Qed.

(** X4. In a store the service can reach, every market has one of the three
    game types, a non-empty list of outcomes that all carry key, label and
    odds, and is either "open" with no settlement recorded or "settled" with
    its key and time (never "closed"); every bet names a stored market and is
    "pending" and never updated, or "won" on a market settled for its own key,
    or "lost" on a market settled for another key (never "refunded"); every
    user is active with balance 0. *)
Theorem reachable_store_shape (db : DB) :
  reachable db →
  (∀ i u, user db !! i = Some u → User.is_active u = true ∧ User.balance u = 0%float) ∧
  (∀ i m, market db !! i = Some m →
     Market.game_type m ∈ ["cricket"; "matka"; "other"] ∧
     Market.outcomes m ≠ [] ∧
     Forall (λ o, has_outcome_fields o = true) (Market.outcomes m) ∧
     ((Market.status m = "open" ∧
       Market.settled_outcome_key m = None ∧ Market.settled_at m = None) ∨
      (Market.status m = "settled" ∧
       is_Some (Market.settled_outcome_key m) ∧ is_Some (Market.settled_at m)))) ∧
  (∀ i b, bet db !! i = Some b →
     ∃ mid m,
       ObjectId_of_str (Bet.market_id b) = Some mid ∧
       market db !! mid = Some m ∧
       ((Bet.status b = "pending" ∧ Bet.updated_at b = None) ∨
        (Bet.status b = "won" ∧ is_Some (Bet.updated_at b) ∧
         Market.status m = "settled" ∧
         Market.settled_outcome_key m = Some (Bet.outcome_key b)) ∨
        (Bet.status b = "lost" ∧ is_Some (Bet.updated_at b) ∧
         Market.status m = "settled" ∧
         ∃ k, Market.settled_outcome_key m = Some k ∧ k ≠ Bet.outcome_key b))).
Proof. intros Hreach. exact (reachable_wf db Hreach). Qed.

(** ** What later requests cannot change *)

Lemma step_effect_market (db db' : DB) (i : N) (m : Market.doc) :
  step_effect db db' →
  market db !! i = Some m →
  market db' !! i = Some m ∨
  (Market.status m = "open" ∧ ∃ k t, market db' !! i = Some (Market.set_settled k t m)).
Proof.
  intros Heff Hi.
  destruct Heff as [->
                   |new_id u Hfresh Hu ->
                   |new_id now payload Hfresh Hgt Hne Hall ->
                   |new_id now payload mid m0 f Hfresh Hid Hm Hst ->
                   |market_id mid m0 k t Hid Hm Hst Hu Hmk Hnone Hother Hthis];
    try (by left).
  - left. cbn [market]. rewrite lookup_insert_ne; [done|congruence].
  - rewrite Hmk. destruct (decide (mid = i)) as [<-|Hne].
    + right. rewrite Hm in Hi. injection Hi as <-. split; [done|].
      exists k, t. by rewrite lookup_alter_eq, Hm.
    + left. by rewrite lookup_alter_ne.
Qed.

Lemma step_effect_user (db db' : DB) (i : N) (u : User.doc) :
  step_effect db db' → user db !! i = Some u → user db' !! i = Some u.
Proof.
  intros Heff Hi.
  destruct Heff as [->
                   |new_id u0 Hfresh Hu ->
                   |new_id now payload Hfresh Hgt Hne Hall ->
                   |new_id now payload mid m0 f Hfresh Hid Hm Hst ->
                   |market_id mid m0 k t Hid Hm Hst Hu Hmk Hnone Hother Hthis];
    try done.
  - cbn [user]. rewrite lookup_insert_ne; [done|congruence].
  - by rewrite Hu.
Qed.

Lemma step_effect_resolved_bet (db db' : DB) (i : N) (b : Bet.doc) :
  store_wf db →
  step_effect db db' →
  bet db !! i = Some b →
  Bet.status b ≠ "pending" →
  bet db' !! i = Some b.
Proof.
  intros (_ & _ & Hbs) Heff Hi Hres.
  destruct Heff as [->
                   |new_id u0 Hfresh Hu ->
                   |new_id now payload Hfresh Hgt Hne Hall ->
                   |new_id now payload mid m0 f Hfresh Hid Hm Hst ->
                   |market_id mid m0 k t Hid Hm Hst Hu Hmk Hnone Hother Hthis];
    try done.
  - cbn [bet]. rewrite lookup_insert_ne; [done|congruence].
  - apply Hother; [done|]. intros Heq.
    destruct (Hbs i b Hi) as (mid_b & m_b & Hid_b & Hm_b & Hcase).
    rewrite Heq, Hid in Hid_b. injection Hid_b as <-.
    rewrite Hm in Hm_b. injection Hm_b as <-.
    destruct Hcase as [[Hp _]|[(_ & _ & Hs & _)|(_ & _ & Hs & _)]]; congruence.
Qed.

(** X5. Once a market is settled its record is final: whatever requests
    follow, the market stays stored with the same status, the same
    settled_outcome_key and settled_at, and all its other fields. *)
Theorem settled_market_final (rs : list (N * (nat → Z) * request)) (db : DB) (i : N)
    (m : Market.doc) :
  market db !! i = Some m →
  Market.status m = "settled" →
  market (run rs db) !! i = Some m.
Proof.
  revert db. induction rs as [|[[new_id now] r] rs IH]; intros db Hm Hst; [done|].
  cbn [run]. apply IH; [|done].
  destruct (step_effect_market _ _ i m (handle_effect new_id now r db) Hm)
    as [Hsame|[Hopen _]]; [done|congruence].
Qed.

(** X6. The terms of a market are fixed at creation: whatever requests
    follow, a stored market keeps its game type, title, outcomes, start time
    and creation time; at most its status, settled_outcome_key and settled_at
    change. *)
Theorem market_terms_frozen (rs : list (N * (nat → Z) * request)) (db : DB) (i : N)
    (m : Market.doc) :
  market db !! i = Some m →
  ∃ m', market (run rs db) !! i = Some m' ∧
        Market.game_type m' = Market.game_type m ∧
        Market.title m' = Market.title m ∧
        Market.outcomes m' = Market.outcomes m ∧
        Market.start_time m' = Market.start_time m ∧
        Market.created_at m' = Market.created_at m.
Proof.
  revert db m. induction rs as [|[[new_id now] r] rs IH]; intros db m Hm.
  - by exists m.
  - cbn [run].
    destruct (step_effect_market _ _ i m (handle_effect new_id now r db) Hm)
      as [Hsame|(_ & k & t & Hset)].
    + by apply IH.
    + destruct (IH _ _ Hset) as (m' & Hm' & ? & ? & ? & ? & ?). by exists m'.
Qed.

(** X7. A user record is never rewritten or removed: whatever requests
    follow, in particular bets and settlements, a stored user stays stored
    with the same fields, the balance among them. *)
Theorem user_never_changes (rs : list (N * (nat → Z) * request)) (db : DB) (i : N)
    (u : User.doc) :
  user db !! i = Some u →
  user (run rs db) !! i = Some u.
Proof.
  revert db. induction rs as [|[[new_id now] r] rs IH]; intros db Hu; [done|].
  cbn [run]. apply IH. by eapply step_effect_user; [apply handle_effect|].
Qed.

(** X8. A bet is resolved once: in a store the service can reach, a bet
    whose status is no longer "pending" stays stored exactly as it is (status,
    updated_at and terms) whatever requests follow. *)
Theorem resolved_bet_final (rs : list (N * (nat → Z) * request)) (db : DB) (i : N)
    (b : Bet.doc) :
  reachable db →
  bet db !! i = Some b →
  Bet.status b ≠ "pending" →
  bet (run rs db) !! i = Some b.
Proof.
  revert db. induction rs as [|[[new_id now] r] rs IH]; intros db Hreach Hb Hres;
    [done|].
  cbn [run]. apply IH; [by constructor| |done].
  eapply step_effect_resolved_bet; [by apply reachable_wf|apply handle_effect|done|done].
Qed.

(** X9. A request that ends in an exception has written nothing: the store
    after it is the store before it. *)
Theorem failed_request_writes_nothing (new_id : N) (now : nat → Z) (r : request)
    (db : DB) (e : exn) :
  (handle new_id now r db).1 = inl e →
  (handle new_id now r db).2 = db.
Proof.
  destruct r as [p|p|g|p|uid0|market_id p]; cbn [handle].
  - destruct (create_user_inv new_id now p db) as [[e' ->]|(r & u & _ & ->)]; done.
  - destruct (create_market_inv new_id now p db) as [[e' ->]|(_ & _ & _ & _ & ->)]; done.
  - done.
  - destruct (place_bet_inv new_id now p db)
      as [[e' ->]|(?&?&?&?&?&?&_&_&_&_&_&_&_&_& ->)]; done.
  - done.
  - destruct (settle_market_inv now market_id p db) as [[e' ->]|(mid & m & Hid & Hm & Hst)];
      [done|].
    destruct (settle_market_open now market_id p db mid m Hid Hm Hst) as (-> & _).
    done.
Qed.

(** ** Market creation: what is refused, what is accepted *)

Lemma has_outcome_fields_spec (o : dict) :
  has_outcome_fields o = true
  ↔ is_Some (o !! "key") ∧ is_Some (o !! "label") ∧ is_Some (o !! "odds").
Proof.
  unfold has_outcome_fields. rewrite bool_decide_eq_true.
  rewrite <- !elem_of_dom. set_solver.
Qed.

Lemma has_outcome_fields_false (o : dict) :
  has_outcome_fields o = false
  ↔ o !! "key" = None ∨ o !! "label" = None ∨ o !! "odds" = None.
Proof.
  rewrite <- not_true_iff_false, has_outcome_fields_spec.
  rewrite <- !not_eq_None_Some.
  destruct (o !! "key"), (o !! "label"), (o !! "odds"); naive_solver.
Qed.

Lemma check_outcomes_incomplete (os : list dict) (db : DB) :
  Exists (λ o, has_outcome_fields o = false) os →
  check_outcomes os db
  = (inl (HTTPException 400 "Each outcome needs key, label, odds"), db).
Proof.
  induction os as [|o os IH]; intros Hex; [by apply Exists_nil in Hex|].
  cbn [check_outcomes]. destruct (has_outcome_fields o) eqn:Ho; [|done].
  apply IH. apply Exists_cons in Hex as [Hex|Hex]; [congruence|done].
Qed.

(** X10. Market creation refuses, in this order and without writing: a game
    type outside cricket, matka and other (400 "Invalid game_type", whatever
    the outcomes); an empty list of outcomes (400 "Outcomes required"); a list
    in which some outcome lacks one of the keys key, label, odds (400 "Each
    outcome needs key, label, odds", however many other outcomes are
    complete). *)
Theorem create_market_rejections (new_id : N) (now : nat → Z) (payload : CreateMarket)
    (db : DB) :
  (cm_game_type payload ∉ ["cricket"; "matka"; "other"] →
   create_market new_id now payload db
   = (inl (HTTPException 400 "Invalid game_type"), db)) ∧
  (cm_game_type payload ∈ ["cricket"; "matka"; "other"] →
   cm_outcomes payload = [] →
   create_market new_id now payload db
   = (inl (HTTPException 400 "Outcomes required"), db)) ∧
  (cm_game_type payload ∈ ["cricket"; "matka"; "other"] →
   Exists (λ o, o !! "key" = None ∨ o !! "label" = None ∨ o !! "odds" = None)
          (cm_outcomes payload) →
   create_market new_id now payload db
   = (inl (HTTPException 400 "Each outcome needs key, label, odds"), db)).
Proof.
  split; [|split].
  - intros Hgt. unfold create_market. by rewrite bool_decide_false.
  - intros Hgt Hnil. unfold create_market. rewrite bool_decide_true by done.
    by rewrite bool_decide_true.
  - intros Hgt Hex. unfold create_market, bind. rewrite bool_decide_true by done.
    rewrite bool_decide_false.
    2:{ intros Hnil. rewrite Hnil in Hex. by apply Exists_nil in Hex. }
    cbn [negb]. rewrite check_outcomes_incomplete; [done|].
    eapply Exists_impl; [exact Hex|]. intros o Ho. by apply has_outcome_fields_false.
Qed.

(** X11. Market creation returns an id exactly when the game type is one of
    the three, the list of outcomes is non-empty, every outcome has the keys
    key, label and odds, and the id picked for the document is free; nothing
    else about the request (title, start time, the values under the keys) is
    looked at. *)
Theorem create_market_accepted_iff (new_id : N) (now : nat → Z) (payload : CreateMarket)
    (db : DB) :
  (∃ r, (create_market new_id now payload db).1 = inr r)
  ↔ cm_game_type payload ∈ ["cricket"; "matka"; "other"] ∧
    cm_outcomes payload ≠ [] ∧
    Forall (λ o, is_Some (o !! "key") ∧ is_Some (o !! "label") ∧ is_Some (o !! "odds"))
           (cm_outcomes payload) ∧
    market db !! new_id = None.
Proof.
  split.
  - intros [r Hr].
    destruct (create_market_inv new_id now payload db)
      as [[e He]|(Hfresh & Hgt & Hne & Hall & _)]; [by rewrite He in Hr|].
    do 2 (split; [done|]). split; [|done].
    eapply Forall_impl; [exact Hall|]. intros o Ho. by apply has_outcome_fields_spec.
  - intros (Hgt & Hne & Hall & Hfresh). eexists.
    rewrite create_market_accepts; [done|done|done| |done].
    eapply Forall_impl; [exact Hall|]. intros o Ho. by apply has_outcome_fields_spec.
Qed.

(** ** Lookups that fail *)

Lemma find_outcome_nonempty (outcomes : list dict) (key : string) (o : dict) :
  find_outcome outcomes key = Some o → o ≠ ∅.
Proof.
  unfold find_outcome. intros Ho. apply find_some in Ho as [_ Hmatch].
  intros ->. unfold dict_get in Hmatch. by rewrite lookup_empty in Hmatch.
Qed.

(** X12. Bet placement looks up the market first and the user last: an id
    string that is no ObjectId gives 400 "Invalid ID format" and an id with no
    stored market 404 "Market not found", whatever the rest of the request; on
    an open market with a matching outcome, a user id that is no ObjectId
    gives 400 "Invalid ID format" and one with no stored user 404 "User not
    found". In each case nothing is written. *)
Theorem place_bet_lookup_errors (new_id : N) (now : nat → Z) (payload : PlaceBet)
    (db : DB) :
  (ObjectId_of_str (pb_market_id payload) = None →
   place_bet new_id now payload db
   = (inl (HTTPException 400 "Invalid ID format"), db)) ∧
  (∀ mid, ObjectId_of_str (pb_market_id payload) = Some mid →
     market db !! mid = None →
     place_bet new_id now payload db
     = (inl (HTTPException 404 "Market not found"), db)) ∧
  (∀ mid m o,
     ObjectId_of_str (pb_market_id payload) = Some mid →
     market db !! mid = Some m →
     Market.status m = "open" →
     find_outcome (Market.outcomes m) (pb_outcome_key payload) = Some o →
     (ObjectId_of_str (pb_user_id payload) = None →
      place_bet new_id now payload db
      = (inl (HTTPException 400 "Invalid ID format"), db)) ∧
     (∀ uid, ObjectId_of_str (pb_user_id payload) = Some uid →
        user db !! uid = None →
        place_bet new_id now payload db
        = (inl (HTTPException 404 "User not found"), db))).
Proof.
  split; [|split].
  - intros Hid. unfold place_bet, oid, bind. by rewrite Hid.
  - intros mid Hid Hm. unfold place_bet, oid, bind. rewrite Hid.
    cbn [ret find_one_market]. by rewrite Hm.
  - intros mid m o Hid Hm Hst Ho.
    split.
    + intros Huid. unfold place_bet, oid, bind. rewrite Hid.
      cbn [ret find_one_market]. rewrite Hm, Hst.
      cbn [String.eqb Ascii.eqb Bool.eqb negb]. rewrite Ho.
      rewrite bool_decide_false by eauto using find_outcome_nonempty.
      by rewrite Huid.
    + intros uid Huid Hu.
      unfold place_bet, oid, bind, ret, raise, find_one_market, find_one_user.
      rewrite Hid. cbv beta iota zeta. rewrite Hm, Hst.
      cbn [String.eqb Ascii.eqb Bool.eqb negb]. rewrite Ho.
      rewrite bool_decide_false by eauto using find_outcome_nonempty.
      rewrite Huid. cbv beta iota zeta. by rewrite Hu.
Qed.

(** X13. A settlement request under an id string that is no ObjectId is
    refused with 400 "Invalid ID format", and one under an id with no stored
    market with 404 "Market not found"; neither writes anything. *)
Theorem settle_market_lookup_errors (now : nat → Z) (market_id : string)
    (payload : SettlePayload) (db : DB) :
  (ObjectId_of_str market_id = None →
   settle_market now market_id payload db
   = (inl (HTTPException 400 "Invalid ID format"), db)) ∧
  (∀ mid, ObjectId_of_str market_id = Some mid →
     market db !! mid = None →
     settle_market now market_id payload db
     = (inl (HTTPException 404 "Market not found"), db)).
Proof.
  split.
  - intros Hid. unfold settle_market, oid, bind. by rewrite Hid.
  - intros mid Hid Hm. unfold settle_market, oid, bind. rewrite Hid.
    cbn [ret find_one_market]. by rewrite Hm.
Qed.

(** ** Settlement: the edge cases and what follows it *)

(** X14. Settling an open market under whose id no bet is stored succeeds,
    records the settlement on the market and leaves the bet collection and
    the users exactly as they were. *)
Theorem settle_market_without_bets (now : nat → Z) (market_id : string)
    (payload : SettlePayload) (db : DB) (mid : N) (m : Market.doc) :
  ObjectId_of_str market_id = Some mid →
  market db !! mid = Some m →
  Market.status m = "open" →
  (∀ i b, bet db !! i = Some b → Bet.market_id b ≠ market_id) →
  let out := settle_market now market_id payload db in
  out.1 = inr StatusOk ∧
  bet out.2 = bet db ∧
  user out.2 = user db ∧
  market out.2 !! mid
  = Some (Market.set_settled (settled_outcome_key payload) (now 0%nat) m).
Proof.
  intros Hid Hm Hst Hnone out.
  destruct (settle_market_open now market_id payload db mid m Hid Hm Hst)
    as (Hok & Hu & Hmk & Hbets).
  fold out in Hok, Hu, Hmk, Hbets. split; [done|]. split; [|split; [done|]].
  - apply map_eq. intros i. destruct (Hbets i) as (Hn & Hother & _).
    destruct (bet db !! i) as [b|] eqn:Hb; [|by apply Hn].
    apply Hother; [done|]. by eapply Hnone.
  - by rewrite Hmk, lookup_alter_eq, Hm.
Qed.

(** X15. A market is settled once: after a settlement that succeeded, every
    further settlement request for that market, under the same or another
    spelling of its id and for whatever key, is refused with 400 "Market must
    be open to settle", and every bet on it with 400 "Market is not open";
    neither writes anything. *)
Theorem settle_market_once (now : nat → Z) (market_id : string)
    (payload : SettlePayload) (db : DB) (r : response) :
  (settle_market now market_id payload db).1 = inr r →
  let db' := (settle_market now market_id payload db).2 in
  (∀ now' market_id' payload',
     ObjectId_of_str market_id' = ObjectId_of_str market_id →
     settle_market now' market_id' payload' db'
     = (inl (HTTPException 400 "Market must be open to settle"), db')) ∧
  (∀ new_id now' bet_payload,
     ObjectId_of_str (pb_market_id bet_payload) = ObjectId_of_str market_id →
     place_bet new_id now' bet_payload db'
     = (inl (HTTPException 400 "Market is not open"), db')).
Proof.
  intros Hok db'.
  destruct (settle_market_inv now market_id payload db)
    as [[e He]|(mid & m & Hid & Hm & Hst)]; [by rewrite He in Hok|].
  destruct (settle_market_open now market_id payload db mid m Hid Hm Hst)
    as (_ & _ & Hmk & _).
  fold db' in Hmk.
  assert (market db' !! mid
          = Some (Market.set_settled (settled_outcome_key payload) (now 0%nat) m))
    as Hm' by (by rewrite Hmk, lookup_alter_eq, Hm).
  split.
  - intros now' market_id' payload' Hid'. rewrite Hid in Hid'.
    unfold settle_market, oid, bind. rewrite Hid'. cbn [ret find_one_market].
    by rewrite Hm'.
  - intros new_id now' bet_payload Hid'. rewrite Hid in Hid'.
    unfold place_bet, oid, bind. rewrite Hid'. cbn [ret find_one_market].
    by rewrite Hm'.
Qed.

(** ** The first matching outcome *)

(** X16. When several outcomes of a market carry the same key, a bet on that
    key is placed on the first of them in the list: its odds are the odds of
    that outcome, and its potential payout is computed from them. *)
Theorem place_bet_first_outcome (new_id : N) (now : nat → Z) (payload : PlaceBet)
    (db : DB) (mid uid : N) (m : Market.doc) (u : User.doc)
    (before after : list dict) (o : dict) (f : float) :
  ObjectId_of_str (pb_market_id payload) = Some mid →
  market db !! mid = Some m →
  Market.status m = "open" →
  Market.outcomes m = before ++ o :: after →
  Forall (λ o', dict_get o' "key" ≠ VStr (pb_outcome_key payload)) before →
  dict_get o "key" = VStr (pb_outcome_key payload) →
  ObjectId_of_str (pb_user_id payload) = Some uid →
  user db !! uid = Some u →
  py_float (dict_get o "odds") = inr f →
  bet db !! new_id = None →
  let out := place_bet new_id now payload db in
  out.1 = inr (IDModel (str_of_ObjectId new_id)) ∧
  ∃ b, bet out.2 !! new_id = Some b ∧
       Bet.odds b = f ∧
       Bet.potential_payout b = py_round2 (pb_stake payload * f)%float ∧
       Bet.status b = "pending".
Proof.
  intros Hid Hm Hst Hout Hbefore Ho Huid Hu Hf Hfresh out. subst out.
  assert (find_outcome (Market.outcomes m) (pb_outcome_key payload) = Some o) as Hfind.
  { rewrite Hout. unfold find_outcome. clear Hout.
    induction before as [|o' before IH]; cbn [app find].
    - rewrite Ho. cbn [py_eq_str]. by rewrite String.eqb_refl.
    - apply Forall_cons in Hbefore as [Ho' Hbefore].
      destruct (py_eq_str (dict_get o' "key") (pb_outcome_key payload)) eqn:Heq;
        [|by apply IH].
      exfalso. apply Ho'. destruct (dict_get o' "key"); try done.
      cbn [py_eq_str] in Heq. by apply String.eqb_eq in Heq as ->. }
  rewrite (place_bet_accepts new_id now payload db mid uid m o u f) by done.
  cbn [fst snd bet]. split; [done|]. rewrite lookup_insert_eq. by eexists.
Qed.

(** ** The two listings *)

Lemma with_ids_elem {A} (items : list (N * A)) (id : string) (x : A) :
  (id, x) ∈ with_ids items ↔ ∃ i, id = str_of_ObjectId i ∧ (i, x) ∈ items.
Proof.
  unfold with_ids. rewrite list_elem_of_fmap. split.
  - intros ([i y] & [= -> ->] & Hin). by exists i.
  - intros (i & -> & Hin). by exists (i, x).
Qed.

(** X17. The listing of a user's bets answers with at most 200 items and
    leaves the store as it was; every item is a stored bet whose user_id is
    the string asked for, beside the string of its id; and when no more than
    200 bets are stored under that user_id, every one of them is listed. *)
Theorem list_user_bets_page (user_id : string) (db : DB) :
  ∃ items,
    list_user_bets user_id db = (inr (BetItems items), db) ∧
    (length items ≤ 200)%nat ∧
    (∀ id b, (id, b) ∈ items →
       ∃ i, id = str_of_ObjectId i ∧ bet db !! i = Some b ∧ Bet.user_id b = user_id) ∧
    ((length (bets_of_user user_id db) ≤ 200)%nat →
     ∀ i b, bet db !! i = Some b → Bet.user_id b = user_id →
            (str_of_ObjectId i, b) ∈ items).
Proof.
  eexists. split; [reflexivity|]. fold (bets_of_user user_id db). split; [|split].
  - unfold with_ids. rewrite length_fmap, length_take. lia.
  - intros id b Hin. apply with_ids_elem in Hin as (i & -> & Hin).
    assert ((i, b) ∈ bets_of_user user_id db) as Hin'
      by (eapply elem_of_sublist; [exact Hin|apply sublist_take]).
    unfold bets_of_user in Hin'.
    apply list_elem_of_filter in Hin' as [Hu Hin']. apply elem_of_map_to_list in Hin'.
    by exists i.
  - intros Hle i b Hb Hu. apply with_ids_elem. exists i. split; [done|].
    rewrite take_ge by done. unfold bets_of_user.
    apply list_elem_of_filter. split; [done|]. by apply elem_of_map_to_list.
Qed.

(** X18. The listing of the markets answers with at most 100 items and
    leaves the store as it was; every item is a stored market beside the
    string of its id, of the game type asked for when one is given and not
    empty; without a game type, or with the empty string, nothing is filtered;
    and when no more than 100 markets qualify, every one of them is listed. *)
Theorem list_markets_page (game_type : option string) (db : DB) :
  ∃ items,
    list_markets game_type db = (inr (MarketItems items), db) ∧
    (length items ≤ 100)%nat ∧
    (∀ id m, (id, m) ∈ items →
       ∃ i, id = str_of_ObjectId i ∧ market db !! i = Some m ∧
            ∀ g, game_type = Some g → g ≠ "" → Market.game_type m = g) ∧
    ((game_type = None ∨ game_type = Some "") →
     (size (market db) ≤ 100)%nat →
     ∀ i m, market db !! i = Some m → (str_of_ObjectId i, m) ∈ items) ∧
    (∀ g, game_type = Some g → g ≠ "" →
       (length (markets_of_type g db) ≤ 100)%nat →
       ∀ i m, market db !! i = Some m → Market.game_type m = g →
              (str_of_ObjectId i, m) ∈ items).
Proof.
  eexists. split; [reflexivity|]. split; [|split; [|split]].
  - unfold with_ids. rewrite length_fmap, length_take. lia.
  - intros id m Hin. apply with_ids_elem in Hin as (i & -> & Hin).
    apply elem_of_sublist with (l2 := match match game_type with
                                            | Some g => if bool_decide (g = "") then None
                                                        else Some g
                                            | None => None
                                            end with
                                      | Some g => markets_of_type g db
                                      | None => map_to_list (market db)
                                      end) in Hin; [|apply sublist_take].
    exists i. split; [done|]. destruct game_type as [g|].
    + destruct (bool_decide (g = "")) eqn:Hg.
      * apply bool_decide_eq_true in Hg. apply elem_of_map_to_list in Hin.
        split; [done|]. intros g' [= <-] Hne. done.
      * unfold markets_of_type in Hin. apply list_elem_of_filter in Hin as [Hgt Hin].
        apply elem_of_map_to_list in Hin. split; [done|]. by intros g' [= <-] _.
    + apply elem_of_map_to_list in Hin. split; [done|]. by intros g' [=].
  - intros Hnofilter Hsize i m Hm. apply with_ids_elem. exists i. split; [done|].
    assert (match game_type with
            | Some g => if bool_decide (g = "") then None else Some g
            | None => None
            end = None) as ->.
    { destruct Hnofilter as [->| ->]; [done|]. by rewrite bool_decide_true. }
    rewrite take_ge by (by rewrite length_map_to_list).
    by apply elem_of_map_to_list.
  - intros g -> Hne Hle i m Hm Hgt. apply with_ids_elem. exists i. split; [done|].
    rewrite bool_decide_false by done. fold (markets_of_type g db).
    rewrite take_ge by done. unfold markets_of_type.
    apply list_elem_of_filter. split; [done|]. by apply elem_of_map_to_list.
Qed.

(** X19. A bet that was placed can be read back: the listing of the bets of
    its user_id contains it under the id that place_bet returned, pending and
    with the market, outcome and stake of the request, as long as no more than
    200 bets are stored under that user_id. *)
Theorem placed_bet_is_listed (new_id : N) (now : nat → Z) (payload : PlaceBet)
    (db : DB) (r : response) :
  (place_bet new_id now payload db).1 = inr r →
  let db' := (place_bet new_id now payload db).2 in
  (length (bets_of_user (pb_user_id payload) db') ≤ 200)%nat →
  ∃ id items b,
    r = IDModel id ∧
    (list_user_bets (pb_user_id payload) db').1 = inr (BetItems items) ∧
    (id, b) ∈ items ∧
    Bet.status b = "pending" ∧
    Bet.market_id b = pb_market_id payload ∧
    Bet.outcome_key b = pb_outcome_key payload ∧
    Bet.stake b = pb_stake payload.
Proof.
  intros Hok db' Hle.
  destruct (place_bet_inv new_id now payload db)
    as [[e He]|(mid & m & o & uid & u & f & _ & _ & _ & _ & _ & _ & _ & Hfresh & Heq)];
    [by rewrite He in Hok|].
  assert (bet db' !! new_id
          = Some (new_bet now payload f (py_round2 (pb_stake payload * f)%float)))
    as Hb.
  { unfold db'. rewrite Heq. cbn [snd bet]. by rewrite lookup_insert_eq. }
  rewrite Heq in Hok. injection Hok as <-.
  destruct (list_user_bets_page (pb_user_id payload) db')
    as (items & Hlist & _ & _ & Hcomplete).
  exists (str_of_ObjectId new_id), items. eexists.
  split; [done|]. split; [by rewrite Hlist|]. split; [by apply Hcomplete|]. done.
Qed.

(** ** Users *)

(** X2. User creation checks nothing: under a free id every request is
    accepted and the user stored active with balance 0; in particular two
    requests with the same username both succeed and leave two users with
    that username. *)
Theorem create_user_no_uniqueness (id1 id2 : N) (now1 now2 : nat → Z)
    (p1 p2 : CreateUser) (db : DB) :
  user db !! id1 = None →
  user db !! id2 = None →
  id1 ≠ id2 →
  cu_username p1 = cu_username p2 →
  let first := create_user id1 now1 p1 db in
  let second := create_user id2 now2 p2 first.2 in
  first.1 = inr (IDModel (str_of_ObjectId id1)) ∧
  second.1 = inr (IDModel (str_of_ObjectId id2)) ∧
  ∃ u1 u2, user second.2 !! id1 = Some u1 ∧
           user second.2 !! id2 = Some u2 ∧
           User.username u1 = cu_username p1 ∧
           User.username u2 = cu_username p1 ∧
           User.is_active u1 = true ∧ User.balance u1 = 0%float ∧
           User.is_active u2 = true ∧ User.balance u2 = 0%float.
Proof.
  intros H1 H2 Hne Hname first second. subst second first.
  rewrite (create_user_effect id1) by done. cbn [fst snd].
  rewrite (create_user_effect id2) by (cbn [user]; by rewrite lookup_insert_ne).
  cbn [fst snd user]. split; [done|]. split; [done|].
  do 2 eexists. rewrite lookup_insert_eq.
  rewrite lookup_insert_ne by done. rewrite lookup_insert_eq.
  split; [done|]. split; [done|]. cbn. by rewrite Hname.
Qed.

End MoreProperties.

(** * The properties on the worked scenario *)

(** ** Rounding and the scenario of the specification *)

Example py_round2_exact : py_round2 (100 * 1.8)%float = 180%float.
Proof. vm_compute. reflexivity. Qed.

Example py_round2_down : py_round2 2.675%float = 2.67%float.
Proof. vm_compute. reflexivity. Qed.

Example py_round2_tie_even :
  py_round2 0.125%float = 0.12%float ∧ py_round2 0.375%float = 0.38%float.
Proof. split; vm_compute; reflexivity. Qed.

(** 33.33 at 1.8: the float product is a little under 59.994, which is 5999
    hundredths; 2.675 as a float is a little under 2.675, which is 267. *)
Example nearest_hundredths_product :
  Prim2SF (33.33 * 1.8)%float = S754_finite false 8443404876389548 (-47) ∧
  nearest_hundredths 8443404876389548 (-47) 5999 ∧
  rounded_to_hundredths (33.33 * 1.8)%float 59.99%float.
Proof.
  split; [vm_compute; reflexivity|]. split.
  - split; [intros He; by vm_compute in He|]. intros _. vm_compute. split; [discriminate|discriminate].
  - unfold rounded_to_hundredths.
    replace (Prim2SF (33.33 * 1.8)%float)
      with (S754_finite false 8443404876389548 (-47)) by (vm_compute; reflexivity).
    exists 5999. split; [|vm_compute; reflexivity].
    split; [intros He; by vm_compute in He|]. intros _. vm_compute.
    split; discriminate.
Qed.

Example py_round2_negative : py_round2 (-5 * 1.8)%float = (-9)%float.
Proof. vm_compute. reflexivity. Qed.

(** 100 on "A" at 1.8 may pay 180, 50 on "B" at 2.0 may pay 100, both pending;
    once the market is settled for "A" the first is won and the second lost. *)
Example scenario_bets :
  (Bet.odds <$> bet example_db !! 3%N) = Some 1.8%float ∧
  (Bet.potential_payout <$> bet example_db !! 3%N) = Some 180%float ∧
  (Bet.potential_payout <$> bet example_db !! 4%N) = Some 100%float ∧
  (Bet.status <$> bet example_db !! 3%N) = Some "pending" ∧
  (Bet.status <$> bet settled_db !! 3%N) = Some "won" ∧
  (Bet.status <$> bet settled_db !! 4%N) = Some "lost" ∧
  (Market.status <$> market settled_db !! 1%N) = Some "settled".
Proof. repeat split; vm_compute; reflexivity. Qed.

Lemma example_db_reachable : reachable example_db.
Proof. apply reachable_run, reachable_empty. Qed.

(** ** Settlement *)


Lemma settle_market_not_open_witness :
  let m := Market.set_settled "A" (example_clock 0%nat)
             (new_market example_clock cricket_payload) in
  let payload := {| settled_outcome_key := "B" |} in
  ObjectId_of_str market_1 = Some 1%N ∧
  market settled_db !! 1%N = Some m ∧
  Market.status m ≠ "open" ∧
  settle_market example_clock market_1 payload settled_db
  = (inl (HTTPException 400 "Market must be open to settle"), settled_db) ∧
  error_kind_of (HTTPException 400 "Market must be open to settle")
  = Some MarketNotOpen.
Proof.
  assert (ObjectId_of_str market_1 = Some 1%N) as Hid by (vm_compute; reflexivity).
  assert (market settled_db !! 1%N
          = Some (Market.set_settled "A" (example_clock 0%nat)
                    (new_market example_clock cricket_payload)))
    as Hm by (vm_compute; reflexivity).
  assert (Market.status (Market.set_settled "A" (example_clock 0%nat)
                           (new_market example_clock cricket_payload)) ≠ "open")
    as Hst by discriminate.
  do 3 (split; [assumption|]).
  exact (settle_market_not_open example_clock market_1
           {| settled_outcome_key := "B" |} settled_db 1%N _ Hid Hm Hst).
Defined.



Lemma settle_market_other_spelling_witness :
  let m := new_market example_clock cricket_payload in
  let b := new_bet example_clock
             {| pb_user_id := user_2; pb_market_id := market_a;
                pb_outcome_key := "A"; pb_stake := 20 |} 1.8 36 in
  let out := settle_market example_clock market_A {| settled_outcome_key := "A" |}
               spelling_db in
  ObjectId_of_str market_A = Some 10%N ∧
  market spelling_db !! 10%N = Some m ∧
  Market.status m = "open" ∧
  bet spelling_db !! 3%N = Some b ∧
  ObjectId_of_str (Bet.market_id b) = Some 10%N ∧
  Bet.market_id b ≠ market_A ∧
  out.1 = inr StatusOk ∧
  (∃ m', market out.2 !! 10%N = Some m' ∧ Market.status m' = "settled") ∧
  bet out.2 !! 3%N = Some b.
Proof.
  cbv zeta.
  assert (ObjectId_of_str market_A = Some 10%N) as Hid by (vm_compute; reflexivity).
  assert (market spelling_db !! 10%N = Some (new_market example_clock cricket_payload))
    as Hm by (vm_compute; reflexivity).
  assert (Market.status (new_market example_clock cricket_payload) = "open")
    as Hst by reflexivity.
  assert (bet spelling_db !! 3%N
          = Some (new_bet example_clock
                    {| pb_user_id := user_2; pb_market_id := market_a;
                       pb_outcome_key := "A"; pb_stake := 20 |} 1.8 36))
    as Hb by (vm_compute; reflexivity).
  assert (ObjectId_of_str market_a = Some 10%N) as Hid' by (vm_compute; reflexivity).
  assert (market_a ≠ market_A) as Hne by discriminate.
  do 6 (split; [assumption|]).
  exact (settle_market_other_spelling example_clock market_A
           {| settled_outcome_key := "A" |} spelling_db 10%N 3%N _ _
           Hid Hm Hst Hb Hid' Hne).
Defined.


(** ** Bet placement *)

Lemma place_bet_market_not_open_witness :
  let m := Market.set_settled "A" (example_clock 0%nat)
             (new_market example_clock cricket_payload) in
  let payload := {| pb_user_id := "nobody";
                    pb_market_id := market_1;
                    pb_outcome_key := "no such outcome";
                    pb_stake := 10 |} in
  ObjectId_of_str (pb_market_id payload) = Some 1%N ∧
  market settled_db !! 1%N = Some m ∧
  Market.status m ≠ "open" ∧
  place_bet 6%N example_clock payload settled_db
  = (inl (HTTPException 400 "Market is not open"), settled_db) ∧
  error_kind_of (HTTPException 400 "Market is not open") = Some MarketNotOpen.
Proof.
  assert (ObjectId_of_str market_1 = Some 1%N) as Hid by (vm_compute; reflexivity).
  assert (market settled_db !! 1%N
          = Some (Market.set_settled "A" (example_clock 0%nat)
                    (new_market example_clock cricket_payload)))
    as Hm by (vm_compute; reflexivity).
  assert (Market.status (Market.set_settled "A" (example_clock 0%nat)
                           (new_market example_clock cricket_payload)) ≠ "open")
    as Hst by discriminate.
  do 3 (split; [assumption|]).
  exact (place_bet_market_not_open 6%N example_clock
           {| pb_user_id := "nobody"; pb_market_id := market_1;
              pb_outcome_key := "no such outcome"; pb_stake := 10 |}
           settled_db 1%N _ Hid Hm Hst).
Defined.


Lemma place_bet_invalid_outcome_witness :
  let m := new_market example_clock cricket_payload in
  ObjectId_of_str (pb_market_id (bet_on "C" 10)) = Some 1%N ∧
  market example_db !! 1%N = Some m ∧
  Market.status m = "open" ∧
  Forall (λ o, py_eq_str (dict_get o "key") (pb_outcome_key (bet_on "C" 10)) = false)
         (Market.outcomes m) ∧
  place_bet 6%N example_clock (bet_on "C" 10) example_db
  = (inl (HTTPException 400 "Invalid outcome"), example_db) ∧
  error_kind_of (HTTPException 400 "Invalid outcome") = Some InvalidOutcome.
Proof.
  assert (ObjectId_of_str market_1 = Some 1%N) as Hid by (vm_compute; reflexivity).
  assert (market example_db !! 1%N = Some (new_market example_clock cricket_payload))
    as Hm by (vm_compute; reflexivity).
  assert (Market.status (new_market example_clock cricket_payload) = "open")
    as Hst by reflexivity.
  assert (Forall (λ o, py_eq_str (dict_get o "key") "C" = false)
                 (Market.outcomes (new_market example_clock cricket_payload)))
    as Hkeys by (repeat constructor).
  do 4 (split; [assumption|]).
  exact (place_bet_invalid_outcome 6%N example_clock (bet_on "C" 10) example_db 1%N _
           Hid Hm Hst Hkeys).
Defined.

(** C3. The stake is never checked: on the open market of the scenario a bet
    of -5 on "A", and one of 0, is accepted and stored, with the payouts -9
    and 0; the specification has it refused as an invalid stake, and the [Bet]
    schema declares the stake positive. *)
Theorem place_bet_accepts_nonpositive_stake :
  let out := place_bet 9%N example_clock (bet_on "A" (-5)) example_db in
  let out0 := place_bet 9%N example_clock (bet_on "A" 0) example_db in
  (pb_stake (bet_on "A" (-5)) <=? 0)%float = true ∧
  out.1 = inr (IDModel "000000000000000000000009") ∧
  bet out.2 !! 9%N
  = Some (new_bet example_clock (bet_on "A" (-5)) 1.8%float (-9)%float) ∧
  (pb_stake (bet_on "A" 0) <=? 0)%float = true ∧
  out0.1 = inr (IDModel "000000000000000000000009") ∧
  bet out0.2 !! 9%N = Some (new_bet example_clock (bet_on "A" 0) 1.8%float 0%float).
Proof. repeat split; vm_compute; reflexivity. Qed.

(** ** Market creation *)

(** Against C7 as first stated: a request with the key "A" on two outcomes
    has a valid game type and outcomes that all carry the three fields; the
    market is created and stored with both outcomes, its keys not distinct. *)
Lemma create_market_duplicate_keys :
  let out := create_market 1%N example_clock duplicate_keys_payload empty_db in
  cm_game_type duplicate_keys_payload ∈ ["cricket"; "matka"; "other"] ∧
  cm_outcomes duplicate_keys_payload ≠ [] ∧
  Forall (λ o, has_outcome_fields o = true) (cm_outcomes duplicate_keys_payload) ∧
  out.1 = inr (IDModel "000000000000000000000001") ∧
  ∃ m, market out.2 !! 1%N = Some m ∧
       Market.status m = "open" ∧
       Market.outcomes m = cm_outcomes duplicate_keys_payload ∧
       ¬ NoDup (outcome_keys (Market.outcomes m)).
Proof.
  split; [set_solver|]. split; [done|]. split; [repeat constructor|].
  split; [vm_compute; reflexivity|].
  exists (new_market example_clock duplicate_keys_payload).
  split; [vm_compute; reflexivity|]. split; [done|]. split; [done|].
  intros Hnd. apply NoDup_cons in Hnd as [Hnotin _]. apply Hnotin.
  vm_compute. left.
Qed.

Lemma market_status_monotonic_witness :
  let out := create_market 1%N example_clock cricket_payload empty_db in
  let m := Market.set_settled "A" (example_clock 0%nat)
             (new_market example_clock cricket_payload) in
  (out = (inr (IDModel "000000000000000000000001"), out.2) ∧
   market empty_db !! 1%N = None ∧
   (∃ m, market out.2 !! 1%N = Some m ∧ Market.status m = "open") ∧
   ∀ i, i ≠ 1%N → market out.2 !! i = market empty_db !! i) ∧
  (market settled_db !! 1%N = Some m ∧
   Market.status m = "settled" ∧
   ∃ m', market (run later_requests settled_db) !! 1%N = Some m' ∧
         Market.status m' = "settled").
Proof.
  cbv zeta.
  assert (create_market 1%N example_clock cricket_payload empty_db
          = (inr (IDModel "000000000000000000000001"),
             (create_market 1%N example_clock cricket_payload empty_db).2))
    as Hcreate by (vm_compute; reflexivity).
  assert (market settled_db !! 1%N
          = Some (Market.set_settled "A" (example_clock 0%nat)
                    (new_market example_clock cricket_payload)))
    as Hm by (vm_compute; reflexivity).
  split.
  - split; [exact Hcreate|].
    exact (proj1 market_status_monotonic 1%N example_clock cricket_payload _ _ _ Hcreate).
  - split; [exact Hm|]. split; [reflexivity|].
    exact (proj2 market_status_monotonic later_requests settled_db 1%N _ Hm eq_refl).
Defined.

Lemma create_market_preserves_outcomes_witness :
  let out := create_market 1%N example_clock cricket_payload empty_db in
  cm_game_type cricket_payload ∈ ["cricket"; "matka"; "other"] ∧
  cm_outcomes cricket_payload ≠ [] ∧
  Forall (λ o, has_outcome_fields o = true) (cm_outcomes cricket_payload) ∧
  market empty_db !! 1%N = None ∧
  out.1 = inr (IDModel (str_of_ObjectId 1%N)) ∧
  ∃ m, market out.2 !! 1%N = Some m ∧
       Market.status m = "open" ∧
       Market.outcomes m = cm_outcomes cricket_payload ∧
       (NoDup (outcome_keys (Market.outcomes m))
        ↔ NoDup (outcome_keys (cm_outcomes cricket_payload))).
Proof.
  assert (cm_game_type cricket_payload ∈ ["cricket"; "matka"; "other"]) as Hgt
    by (apply elem_of_cons; by left).
  assert (cm_outcomes cricket_payload ≠ []) as Hne by discriminate.
  assert (Forall (λ o, has_outcome_fields o = true) (cm_outcomes cricket_payload))
    as Hall by (repeat constructor).
  assert (market empty_db !! 1%N = None) as Hfresh by reflexivity.
  do 4 (split; [assumption|]).
  exact (create_market_preserves_outcomes 1%N example_clock cricket_payload empty_db
           Hgt Hne Hall Hfresh).
Defined.

(** C8. The odds are never compared with 1.0: a market whose only outcome is
    at odds 0.5 is created and stored; the specification has it rejected, and
    the [Outcome] schema declares the odds above 1.0. *)
Theorem create_market_accepts_low_odds :
  let out := create_market 1%N example_clock low_odds_payload empty_db in
  out.1 = inr (IDModel "000000000000000000000001") ∧
  ∃ m o, market out.2 !! 1%N = Some m ∧
         Market.outcomes m = [o] ∧
         dict_get o "odds" = VFloat 0.5 ∧
         (0.5 <=? 1)%float = true.
Proof.
  split; [vm_compute; reflexivity|].
  exists (new_market example_clock low_odds_payload), (outcome "A" "Team A" (VFloat 0.5)).
  repeat split; vm_compute; reflexivity.
Qed.

Lemma non_numeric_odds_unhandled_witness :
  let db := run [(2%N, example_clock,
                  ReqCreateUser {| cu_username := "asha"; cu_email := None |})]
                empty_db in
  let u := {| User.username := "asha"; User.email := None;
              User.created_at := example_clock 0%nat;
              User.is_active := true; User.balance := 0 |} in
  let created := create_market 1%N example_clock null_odds_payload db in
  let bet_payload := {| pb_user_id := user_2;
                        pb_market_id := str_of_ObjectId 1%N;
                        pb_outcome_key := "A";
                        pb_stake := 100 |} in
  market db !! 1%N = None ∧
  ObjectId_of_str (str_of_ObjectId 1%N) = Some 1%N ∧
  ObjectId_of_str user_2 = Some 2%N ∧
  user db !! 2%N = Some u ∧
  created.1 = inr (IDModel (str_of_ObjectId 1%N)) ∧
  (∃ m o, market created.2 !! 1%N = Some m ∧
          Market.outcomes m = [o] ∧
          dict_get o "odds" = VNone ∧
          py_float (dict_get o "odds") = inl TypeError) ∧
  place_bet 3%N example_clock bet_payload created.2 = (inl TypeError, created.2) ∧
  error_kind_of TypeError = None.
Proof.
  cbv zeta.
  assert (market (run [(2%N, example_clock,
                        ReqCreateUser {| cu_username := "asha"; cu_email := None |})]
                      empty_db) !! 1%N = None) as Hfresh by (vm_compute; reflexivity).
  assert (ObjectId_of_str (str_of_ObjectId 1%N) = Some 1%N) as Hround
    by (vm_compute; reflexivity).
  assert (ObjectId_of_str user_2 = Some 2%N) as Huid by (vm_compute; reflexivity).
  assert (user (run [(2%N, example_clock,
                      ReqCreateUser {| cu_username := "asha"; cu_email := None |})]
                    empty_db) !! 2%N
          = Some {| User.username := "asha"; User.email := None;
                    User.created_at := example_clock 0%nat;
                    User.is_active := true; User.balance := 0 |})
    as Hu by (vm_compute; reflexivity).
  do 4 (split; [assumption|]).
  exact (non_numeric_odds_unhandled 1%N 3%N 2%N example_clock example_clock _ user_2 _
           100%float Hfresh Hround Huid Hu).
Defined.

(** ** Further properties, on the scenario *)

Lemma settled_db_reachable : reachable settled_db.
Proof. apply reachable_run, example_db_reachable. Qed.

Lemma reachable_store_shape_witness :
  reachable settled_db ∧
  (∀ i u, user settled_db !! i = Some u →
     User.is_active u = true ∧ User.balance u = 0%float) ∧
  (∀ i m, market settled_db !! i = Some m →
     Market.game_type m ∈ ["cricket"; "matka"; "other"] ∧
     Market.outcomes m ≠ [] ∧
     Forall (λ o, has_outcome_fields o = true) (Market.outcomes m) ∧
     ((Market.status m = "open" ∧
       Market.settled_outcome_key m = None ∧ Market.settled_at m = None) ∨
      (Market.status m = "settled" ∧
       is_Some (Market.settled_outcome_key m) ∧ is_Some (Market.settled_at m)))) ∧
  (∀ i b, bet settled_db !! i = Some b →
     ∃ mid m,
       ObjectId_of_str (Bet.market_id b) = Some mid ∧
       market settled_db !! mid = Some m ∧
       ((Bet.status b = "pending" ∧ Bet.updated_at b = None) ∨
        (Bet.status b = "won" ∧ is_Some (Bet.updated_at b) ∧
         Market.status m = "settled" ∧
         Market.settled_outcome_key m = Some (Bet.outcome_key b)) ∨
        (Bet.status b = "lost" ∧ is_Some (Bet.updated_at b) ∧
         Market.status m = "settled" ∧
         ∃ k, Market.settled_outcome_key m = Some k ∧ k ≠ Bet.outcome_key b))).
Proof.
  split; [exact settled_db_reachable|].
  exact (reachable_store_shape settled_db settled_db_reachable).
Defined.

Lemma settled_market_final_witness :
  let m := Market.set_settled "A" (example_clock 0%nat)
             (new_market example_clock cricket_payload) in
  market settled_db !! 1%N = Some m ∧
  Market.status m = "settled" ∧
  market (run later_requests settled_db) !! 1%N = Some m.
Proof.
  cbv zeta.
  assert (market settled_db !! 1%N
          = Some (Market.set_settled "A" (example_clock 0%nat)
                    (new_market example_clock cricket_payload)))
    as Hm by (vm_compute; reflexivity).
  split; [exact Hm|]. split; [reflexivity|].
  exact (settled_market_final later_requests settled_db 1%N _ Hm eq_refl).
Defined.

Lemma market_terms_frozen_witness :
  let m := new_market example_clock cricket_payload in
  market example_db !! 1%N = Some m ∧
  ∃ m', market (run settling_requests example_db) !! 1%N = Some m' ∧
        Market.game_type m' = Market.game_type m ∧
        Market.title m' = Market.title m ∧
        Market.outcomes m' = Market.outcomes m ∧
        Market.start_time m' = Market.start_time m ∧
        Market.created_at m' = Market.created_at m.
Proof.
  cbv zeta.
  assert (market example_db !! 1%N = Some (new_market example_clock cricket_payload))
    as Hm by (vm_compute; reflexivity).
  split; [exact Hm|].
  exact (market_terms_frozen settling_requests example_db 1%N _ Hm).
Defined.

Lemma user_never_changes_witness :
  let u := {| User.username := "asha"; User.email := None;
              User.created_at := example_clock 0%nat;
              User.is_active := true; User.balance := 0 |} in
  user example_db !! 2%N = Some u ∧
  user (run settling_requests example_db) !! 2%N = Some u.
Proof.
  cbv zeta.
  assert (user example_db !! 2%N
          = Some {| User.username := "asha"; User.email := None;
                    User.created_at := example_clock 0%nat;
                    User.is_active := true; User.balance := 0 |})
    as Hu by (vm_compute; reflexivity).
  split; [exact Hu|].
  exact (user_never_changes settling_requests example_db 2%N _ Hu).
Defined.

Lemma resolved_bet_final_witness :
  let b := Bet.set_status "won" (example_clock 2%nat)
             (new_bet example_clock (bet_on "A" 100) 1.8 180) in
  reachable settled_db ∧
  bet settled_db !! 3%N = Some b ∧
  Bet.status b ≠ "pending" ∧
  bet (run later_requests settled_db) !! 3%N = Some b.
Proof.
  cbv zeta.
  assert (bet settled_db !! 3%N
          = Some (Bet.set_status "won" (example_clock 2%nat)
                    (new_bet example_clock (bet_on "A" 100) 1.8 180)))
    as Hb by (vm_compute; reflexivity).
  assert (Bet.status (Bet.set_status "won" (example_clock 2%nat)
                        (new_bet example_clock (bet_on "A" 100) 1.8 180)) ≠ "pending")
    as Hres by discriminate.
  split; [exact settled_db_reachable|]. split; [exact Hb|]. split; [exact Hres|].
  exact (resolved_bet_final later_requests settled_db 3%N _ settled_db_reachable Hb Hres).
Defined.

Lemma failed_request_writes_nothing_witness :
  let r := ReqPlaceBet (bet_on "A" 10) in
  (handle 6%N example_clock r settled_db).1
  = inl (HTTPException 400 "Market is not open") ∧
  (handle 6%N example_clock r settled_db).2 = settled_db.
Proof.
  cbv zeta.
  assert ((handle 6%N example_clock (ReqPlaceBet (bet_on "A" 10)) settled_db).1
          = inl (HTTPException 400 "Market is not open"))
    as Hfail by (vm_compute; reflexivity).
  split; [exact Hfail|].
  exact (failed_request_writes_nothing 6%N example_clock _ settled_db _ Hfail).
Defined.

Lemma create_market_rejections_witness :
  (cm_game_type bad_type_payload ∉ ["cricket"; "matka"; "other"] ∧
   create_market 6%N example_clock bad_type_payload example_db
   = (inl (HTTPException 400 "Invalid game_type"), example_db)) ∧
  (cm_game_type no_outcome_payload ∈ ["cricket"; "matka"; "other"] ∧
   cm_outcomes no_outcome_payload = [] ∧
   create_market 6%N example_clock no_outcome_payload example_db
   = (inl (HTTPException 400 "Outcomes required"), example_db)) ∧
  (cm_game_type incomplete_payload ∈ ["cricket"; "matka"; "other"] ∧
   Exists (λ o, o !! "key" = None ∨ o !! "label" = None ∨ o !! "odds" = None)
          (cm_outcomes incomplete_payload) ∧
   create_market 6%N example_clock incomplete_payload example_db
   = (inl (HTTPException 400 "Each outcome needs key, label, odds"), example_db)).
Proof.
  assert (cm_game_type bad_type_payload ∉ ["cricket"; "matka"; "other"]) as Hbad.
  { intros Hin. repeat (apply elem_of_cons in Hin as [Hin|Hin]; [discriminate|]).
    by apply elem_of_nil in Hin. }
  assert (cm_game_type no_outcome_payload ∈ ["cricket"; "matka"; "other"]) as Hother
    by (do 2 apply list_elem_of_further; apply list_elem_of_here).
  assert (Exists (λ o, o !! "key" = None ∨ o !! "label" = None ∨ o !! "odds" = None)
                 (cm_outcomes incomplete_payload)) as Hex.
  { apply Exists_cons_tl, Exists_cons_hd. right. right. vm_compute. reflexivity. }
  split; [|split].
  - split; [exact Hbad|].
    exact (proj1 (create_market_rejections 6%N example_clock bad_type_payload example_db)
             Hbad).
  - split; [exact Hother|]. split; [reflexivity|].
    exact (proj1 (proj2 (create_market_rejections 6%N example_clock no_outcome_payload
                           example_db)) Hother eq_refl).
  - split; [exact Hother|]. split; [exact Hex|].
    exact (proj2 (proj2 (create_market_rejections 6%N example_clock incomplete_payload
                           example_db)) Hother Hex).
Defined.

Lemma place_bet_lookup_errors_witness :
  let bad_market := {| pb_user_id := user_2; pb_market_id := "market-1";
                       pb_outcome_key := "A"; pb_stake := 10 |} in
  let no_market := {| pb_user_id := user_2; pb_market_id := user_2;
                      pb_outcome_key := "A"; pb_stake := 10 |} in
  let bad_user := {| pb_user_id := "asha"; pb_market_id := market_1;
                     pb_outcome_key := "A"; pb_stake := 10 |} in
  let no_user := {| pb_user_id := market_1; pb_market_id := market_1;
                    pb_outcome_key := "A"; pb_stake := 10 |} in
  let m := new_market example_clock cricket_payload in
  let o := outcome "A" "Team A" (VFloat 1.8) in
  (ObjectId_of_str (pb_market_id bad_market) = None ∧
   place_bet 6%N example_clock bad_market example_db
   = (inl (HTTPException 400 "Invalid ID format"), example_db)) ∧
  (ObjectId_of_str (pb_market_id no_market) = Some 2%N ∧
   market example_db !! 2%N = None ∧
   place_bet 6%N example_clock no_market example_db
   = (inl (HTTPException 404 "Market not found"), example_db)) ∧
  (ObjectId_of_str market_1 = Some 1%N ∧
   market example_db !! 1%N = Some m ∧
   Market.status m = "open" ∧
   find_outcome (Market.outcomes m) "A" = Some o ∧
   (ObjectId_of_str (pb_user_id bad_user) = None ∧
    place_bet 6%N example_clock bad_user example_db
    = (inl (HTTPException 400 "Invalid ID format"), example_db)) ∧
   (ObjectId_of_str (pb_user_id no_user) = Some 1%N ∧
    user example_db !! 1%N = None ∧
    place_bet 6%N example_clock no_user example_db
    = (inl (HTTPException 404 "User not found"), example_db))).
Proof.
  cbv zeta.
  assert (ObjectId_of_str "market-1" = None) as Hbad by (vm_compute; reflexivity).
  assert (ObjectId_of_str user_2 = Some 2%N) as Hid2 by (vm_compute; reflexivity).
  assert (market example_db !! 2%N = None) as Hnone by (vm_compute; reflexivity).
  assert (ObjectId_of_str market_1 = Some 1%N) as Hid by (vm_compute; reflexivity).
  assert (market example_db !! 1%N = Some (new_market example_clock cricket_payload))
    as Hm by (vm_compute; reflexivity).
  assert (find_outcome (Market.outcomes (new_market example_clock cricket_payload)) "A"
          = Some (outcome "A" "Team A" (VFloat 1.8))) as Ho by (vm_compute; reflexivity).
  assert (ObjectId_of_str "asha" = None) as Hbadu by (vm_compute; reflexivity).
  assert (user example_db !! 1%N = None) as Hnou by (vm_compute; reflexivity).
  split; [|split].
  - split; [exact Hbad|].
    exact (proj1 (place_bet_lookup_errors 6%N example_clock
                    {| pb_user_id := user_2; pb_market_id := "market-1";
                       pb_outcome_key := "A"; pb_stake := 10 |} example_db) Hbad).
  - split; [exact Hid2|]. split; [exact Hnone|].
    exact (proj1 (proj2 (place_bet_lookup_errors 6%N example_clock
                           {| pb_user_id := user_2; pb_market_id := user_2;
                              pb_outcome_key := "A"; pb_stake := 10 |} example_db))
             2%N Hid2 Hnone).
  - split; [exact Hid|]. split; [exact Hm|]. split; [reflexivity|]. split; [exact Ho|].
    split.
    + split; [exact Hbadu|].
      exact (proj1 (proj2 (proj2 (place_bet_lookup_errors 6%N example_clock
                                    {| pb_user_id := "asha"; pb_market_id := market_1;
                                       pb_outcome_key := "A"; pb_stake := 10 |}
                                    example_db))
                      1%N _ _ Hid Hm eq_refl Ho) Hbadu).
    + split; [exact Hid|]. split; [exact Hnou|].
      exact (proj2 (proj2 (proj2 (place_bet_lookup_errors 6%N example_clock
                                    {| pb_user_id := market_1; pb_market_id := market_1;
                                       pb_outcome_key := "A"; pb_stake := 10 |}
                                    example_db))
                      1%N _ _ Hid Hm eq_refl Ho) 1%N Hid Hnou).
Defined.

Lemma settle_market_lookup_errors_witness :
  let payload := {| settled_outcome_key := "A" |} in
  (ObjectId_of_str "market-1" = None ∧
   settle_market example_clock "market-1" payload example_db
   = (inl (HTTPException 400 "Invalid ID format"), example_db)) ∧
  (ObjectId_of_str user_2 = Some 2%N ∧
   market example_db !! 2%N = None ∧
   settle_market example_clock user_2 payload example_db
   = (inl (HTTPException 404 "Market not found"), example_db)).
Proof.
  cbv zeta.
  assert (ObjectId_of_str "market-1" = None) as Hbad by (vm_compute; reflexivity).
  assert (ObjectId_of_str user_2 = Some 2%N) as Hid2 by (vm_compute; reflexivity).
  assert (market example_db !! 2%N = None) as Hnone by (vm_compute; reflexivity).
  split.
  - split; [exact Hbad|].
    exact (proj1 (settle_market_lookup_errors example_clock "market-1"
                    {| settled_outcome_key := "A" |} example_db) Hbad).
  - split; [exact Hid2|]. split; [exact Hnone|].
    exact (proj2 (settle_market_lookup_errors example_clock user_2
                    {| settled_outcome_key := "A" |} example_db) 2%N Hid2 Hnone).
Defined.

Lemma settle_market_without_bets_witness :
  let m := new_market example_clock cricket_payload in
  let payload := {| settled_outcome_key := "B" |} in
  let out := settle_market example_clock market_1 payload opened_db in
  ObjectId_of_str market_1 = Some 1%N ∧
  market opened_db !! 1%N = Some m ∧
  Market.status m = "open" ∧
  (∀ i b, bet opened_db !! i = Some b → Bet.market_id b ≠ market_1) ∧
  out.1 = inr StatusOk ∧
  bet out.2 = bet opened_db ∧
  user out.2 = user opened_db ∧
  market out.2 !! 1%N = Some (Market.set_settled "B" (example_clock 0%nat) m).
Proof.
  cbv zeta.
  assert (ObjectId_of_str market_1 = Some 1%N) as Hid by (vm_compute; reflexivity).
  assert (market opened_db !! 1%N = Some (new_market example_clock cricket_payload))
    as Hm by (vm_compute; reflexivity).
  assert (∀ i b, bet opened_db !! i = Some b → Bet.market_id b ≠ market_1) as Hnone.
  { intros i b Hb. assert (bet opened_db = ∅) as Hempty by (vm_compute; reflexivity).
    rewrite Hempty, lookup_empty in Hb. discriminate. }
  split; [exact Hid|]. split; [exact Hm|]. split; [reflexivity|]. split; [exact Hnone|].
  exact (settle_market_without_bets example_clock market_1
           {| settled_outcome_key := "B" |} opened_db 1%N _ Hid Hm eq_refl Hnone).
Defined.

Lemma settle_market_once_witness :
  let payload := {| settled_outcome_key := "A" |} in
  let db' := (settle_market example_clock market_1 payload example_db).2 in
  (settle_market example_clock market_1 payload example_db).1 = inr StatusOk ∧
  (∀ now' market_id' payload',
     ObjectId_of_str market_id' = ObjectId_of_str market_1 →
     settle_market now' market_id' payload' db'
     = (inl (HTTPException 400 "Market must be open to settle"), db')) ∧
  (∀ new_id now' bet_payload,
     ObjectId_of_str (pb_market_id bet_payload) = ObjectId_of_str market_1 →
     place_bet new_id now' bet_payload db'
     = (inl (HTTPException 400 "Market is not open"), db')).
Proof.
  cbv zeta.
  assert ((settle_market example_clock market_1 {| settled_outcome_key := "A" |}
             example_db).1 = inr StatusOk) as Hok by (vm_compute; reflexivity).
  split; [exact Hok|].
  exact (settle_market_once example_clock market_1 {| settled_outcome_key := "A" |}
           example_db _ Hok).
Defined.

Lemma place_bet_first_outcome_witness :
  let m := new_market example_clock repeated_key_payload in
  let u := {| User.username := "asha"; User.email := None;
              User.created_at := example_clock 0%nat;
              User.is_active := true; User.balance := 0 |} in
  let other := outcome "B" "other" (VFloat 2) in
  let first := outcome "A" "first" (VFloat 1.5) in
  let second := outcome "A" "second" (VFloat 3) in
  let out := place_bet 3%N example_clock (bet_on "A" 10) duplicate_keys_db in
  ObjectId_of_str (pb_market_id (bet_on "A" 10)) = Some 1%N ∧
  market duplicate_keys_db !! 1%N = Some m ∧
  Market.status m = "open" ∧
  Market.outcomes m = [other] ++ first :: [second] ∧
  Forall (λ o', dict_get o' "key" ≠ VStr (pb_outcome_key (bet_on "A" 10))) [other] ∧
  dict_get first "key" = VStr (pb_outcome_key (bet_on "A" 10)) ∧
  ObjectId_of_str (pb_user_id (bet_on "A" 10)) = Some 2%N ∧
  user duplicate_keys_db !! 2%N = Some u ∧
  py_float (dict_get first "odds") = inr 1.5%float ∧
  bet duplicate_keys_db !! 3%N = None ∧
  out.1 = inr (IDModel (str_of_ObjectId 3%N)) ∧
  ∃ b, bet out.2 !! 3%N = Some b ∧
       Bet.odds b = 1.5%float ∧
       Bet.potential_payout b = py_round2 (pb_stake (bet_on "A" 10) * 1.5)%float ∧
       Bet.status b = "pending".
Proof.
  cbv zeta.
  assert (ObjectId_of_str market_1 = Some 1%N) as Hid by (vm_compute; reflexivity).
  assert (market duplicate_keys_db !! 1%N
          = Some (new_market example_clock repeated_key_payload))
    as Hm by (vm_compute; reflexivity).
  assert (Forall (λ o', dict_get o' "key" ≠ VStr "A") [outcome "B" "other" (VFloat 2)])
    as Hbefore.
  { constructor; [|constructor]. vm_compute. discriminate. }
  assert (dict_get (outcome "A" "first" (VFloat 1.5)) "key" = VStr "A")
    as Hkey by (vm_compute; reflexivity).
  assert (ObjectId_of_str user_2 = Some 2%N) as Huid by (vm_compute; reflexivity).
  assert (user duplicate_keys_db !! 2%N
          = Some {| User.username := "asha"; User.email := None;
                    User.created_at := example_clock 0%nat;
                    User.is_active := true; User.balance := 0 |})
    as Hu by (vm_compute; reflexivity).
  assert (py_float (dict_get (outcome "A" "first" (VFloat 1.5)) "odds") = inr 1.5%float)
    as Hf by (vm_compute; reflexivity).
  assert (bet duplicate_keys_db !! 3%N = None) as Hfresh by (vm_compute; reflexivity).
  split; [exact Hid|]. split; [exact Hm|]. split; [reflexivity|]. split; [reflexivity|].
  split; [exact Hbefore|]. split; [exact Hkey|]. split; [exact Huid|]. split; [exact Hu|].
  split; [exact Hf|]. split; [exact Hfresh|].
  exact (place_bet_first_outcome 3%N example_clock (bet_on "A" 10) duplicate_keys_db
           1%N 2%N _ _ [outcome "B" "other" (VFloat 2)]
           [outcome "A" "second" (VFloat 3)] _ _
           Hid Hm eq_refl eq_refl Hbefore Hkey Huid Hu Hf Hfresh).
Defined.

Lemma placed_bet_is_listed_witness :
  let out := place_bet 3%N example_clock (bet_on "A" 100) opened_db in
  out.1 = inr (IDModel "000000000000000000000003") ∧
  (length (bets_of_user (pb_user_id (bet_on "A" 100)) out.2) ≤ 200)%nat ∧
  ∃ id items b,
    IDModel "000000000000000000000003" = IDModel id ∧
    (list_user_bets (pb_user_id (bet_on "A" 100)) out.2).1 = inr (BetItems items) ∧
    (id, b) ∈ items ∧
    Bet.status b = "pending" ∧
    Bet.market_id b = pb_market_id (bet_on "A" 100) ∧
    Bet.outcome_key b = pb_outcome_key (bet_on "A" 100) ∧
    Bet.stake b = pb_stake (bet_on "A" 100).
Proof.
  cbv zeta.
  assert ((place_bet 3%N example_clock (bet_on "A" 100) opened_db).1
          = inr (IDModel "000000000000000000000003")) as Hok by (vm_compute; reflexivity).
  assert (length (bets_of_user (pb_user_id (bet_on "A" 100))
                    (place_bet 3%N example_clock (bet_on "A" 100) opened_db).2) = 1%nat)
    as Hlen by (vm_compute; reflexivity).
  split; [exact Hok|]. split; [rewrite Hlen; lia|].
  refine (placed_bet_is_listed 3%N example_clock (bet_on "A" 100) opened_db _ Hok _).
  rewrite Hlen. lia.
Defined.

Lemma create_user_no_uniqueness_witness :
  let p1 := {| cu_username := "asha"; cu_email := None |} in
  let p2 := {| cu_username := "asha"; cu_email := Some "asha@example.org" |} in
  let first := create_user 1%N example_clock p1 empty_db in
  let second := create_user 2%N example_clock p2 first.2 in
  user empty_db !! 1%N = None ∧
  user empty_db !! 2%N = None ∧
  1%N ≠ 2%N ∧
  cu_username p1 = cu_username p2 ∧
  first.1 = inr (IDModel (str_of_ObjectId 1%N)) ∧
  second.1 = inr (IDModel (str_of_ObjectId 2%N)) ∧
  ∃ u1 u2, user second.2 !! 1%N = Some u1 ∧
           user second.2 !! 2%N = Some u2 ∧
           User.username u1 = cu_username p1 ∧
           User.username u2 = cu_username p1 ∧
           User.is_active u1 = true ∧ User.balance u1 = 0%float ∧
           User.is_active u2 = true ∧ User.balance u2 = 0%float.
Proof.
  cbv zeta.
  assert (1%N ≠ 2%N) as Hne by discriminate.
  split; [reflexivity|]. split; [reflexivity|]. split; [exact Hne|]. split; [reflexivity|].
  exact (create_user_no_uniqueness 1%N 2%N example_clock example_clock
           {| cu_username := "asha"; cu_email := None |}
           {| cu_username := "asha"; cu_email := Some "asha@example.org" |}
           empty_db eq_refl eq_refl Hne eq_refl).
Defined.
